(** * taskflow: executor, task action, retry controllers and reflection helpers

    A shallow embedding of
      - [taskflow/retry.py]                          (module [Retry])
      - [taskflow/utils/reflection.py]               (module [Reflection])
      - [taskflow/engines/action_engine/executor.py] (module [Executor])
      - [taskflow/engines/action_engine/task_action.py] (module [TaskAction])
    together with the properties of these modules that the specification
    states.

    Python code that raises is embedded in an outcome type; code that mutates
    collaborators (storage, notifier, worker pools) is embedded by explicit
    state passing, the state carrying a trace of the calls made on the
    collaborators. *)

From Stdlib Require Import ZArith QArith List Lia.
From stdpp Require Import base strings list gmap.

Set Warnings "-register-all".

Open Scope string_scope.
Open Scope list_scope.

(** ** Python values and exceptions *)

(** An exception instance: the method resolution order of its class (the
    class itself first) and its message.  [isinstance] walks the MRO, which
    is what an [except C:] clause tests. *)
Record exn : Type := Exn { exn_mro : list string; exn_message : string }.

Definition isinstance (e : exn) (cls : string) : bool :=
  existsb (String.eqb cls) (exn_mro e).

Definition Exception : string := "Exception".

Definition NotFound (msg : string) : exn :=
  Exn ["NotFound"; "TaskFlowException"; Exception; "BaseException"; "object"] msg.

Definition AttributeError (msg : string) : exn :=
  Exn ["AttributeError"; "StandardError"; Exception; "BaseException"; "object"] msg.

Definition TypeError (msg : string) : exn :=
  Exn ["TypeError"; "StandardError"; Exception; "BaseException"; "object"] msg.

Definition ValueError (msg : string) : exn :=
  Exn ["ValueError"; "StandardError"; Exception; "BaseException"; "object"] msg.

Definition RuntimeError (msg : string) : exn :=
  Exn ["RuntimeError"; "StandardError"; Exception; "BaseException"; "object"] msg.

Definition KeyboardInterrupt : exn :=
  Exn ["KeyboardInterrupt"; "BaseException"; "object"] "".

#[global] Instance exn_eq_dec : EqDecision exn.
Proof. solve_decision. Defined.

(** The Python values the embedded code handles.  [PFailure e] is a
    [Failure] object wrapping the exception [e]. *)
Inductive pyval : Type :=
| PNone
| PBool (b : bool)
| PInt (z : Z)
| PStr (s : string)
| PFailure (e : exn).

#[global] Instance pyval_eq_dec : EqDecision pyval.
Proof. solve_decision. Defined.

(** Keyword arguments: a dict from names to values. *)
Abbreviation kwargs := (gmap string pyval).

(** ** Outcomes and the state-and-exception monad *)

Inductive outcome (A : Type) : Type :=
| Ret (a : A)
| Raise (e : exn).
Arguments Ret {A} a.
Arguments Raise {A} e.

Definition returns {A : Type} (o : outcome A) : bool :=
  match o with Ret _ => true | Raise _ => false end.

Definition M (S A : Type) : Type := S -> outcome A * S.

Definition ret {S A : Type} (a : A) : M S A := fun s => (Ret a, s).

Definition raise {S A : Type} (e : exn) : M S A := fun s => (Raise e, s).

Definition bind {S A B : Type} (m : M S A) (k : A -> M S B) : M S B :=
  fun s => match m s with
           | (Ret a, s') => k a s'
           | (Raise e, s') => (Raise e, s')
           end.

Declare Scope py_scope.
Delimit Scope py_scope with py.
Notation "x <- c ;; k" := (bind c (fun x => k))
  (at level 100, c at next level, right associativity) : py_scope.
Notation "c ;;; k" := (bind c (fun _ => k))
  (at level 100, right associativity) : py_scope.

(** [try: body / except cls: handler e]: the handler runs when the body
    raises an instance of [cls]; other exceptions pass through. *)
Definition try_except {S A : Type} (body : M S A) (cls : string)
    (handler : exn -> M S A) : M S A :=
  fun s => match body s with
           | (Ret a, s') => (Ret a, s')
           | (Raise e, s') =>
               if isinstance e cls then handler e s' else (Raise e, s')
           end.

(** [try: body / finally: final]: [final] runs on every exit path of
    [body]; an exception raised by [final] replaces the outcome of
    [body]. *)
Definition try_finally {S A : Type} (body : M S A) (final : M S unit) : M S A :=
  fun s => match body s with
           | (o, s') =>
               match final s' with
               | (Ret _, s'') => (o, s'')
               | (Raise e, s'') => (Raise e, s'')
               end
           end.

(** What a piece of user code (a task hook) does, as far as the framework
    can observe: the progress notifications it emits, in order, and then
    its outcome. *)
Record behaviour (A : Type) : Type :=
  Behaviour { emits : list Q; result_of : outcome A }.
Arguments Behaviour {A} emits result_of.
Arguments emits {A} b.
Arguments result_of {A} b.

(** ** taskflow/retry.py *)

Module Retry.

(** Decision results. *)
Definition REVERT : string := "REVERT".
Definition REVERT_ALL : string := "REVERT_ALL".
Definition RETRY : string := "RETRY".

(** A history: the [(result, failures)] pairs of the prior attempts,
    [failures] mapping task names to the wrapped exceptions. *)
Abbreviation history := (list (pyval * gmap string exn)).

Record ForEach : Type := { fe_name : string; _values : list pyval }.
Record ParameterizedForEach : Type := { pfe_name : string }.

(** [item for item, _failures in history] *)
Definition items (h : history) : list pyval := map fst h.

Section ForEachBase.
(** [misc.sequence_minus] lives in [taskflow/utils/misc.py]; the
    controllers are embedded over any such helper. *)
Variable sequence_minus : list pyval -> list pyval -> list pyval.

Definition _get_next_value (name : string) (values : list pyval)
    (h : history) : outcome pyval :=
  let remaining := sequence_minus values (items h) in
  match remaining with
  | [] => Raise (NotFound ("No elements left in collection of iterable "
                             +:+ "retry controller " +:+ name))
  | first :: _ => Ret first
  end.

Definition _on_failure (name : string) (values : list pyval)
    (h : history) : outcome string :=
  match _get_next_value name values h with
  | Raise e => if isinstance e "NotFound" then Ret REVERT else Raise e
  | Ret _ => Ret RETRY
  end.

Definition ForEach_on_failure (self : ForEach) (h : history) : outcome string :=
  _on_failure (fe_name self) (_values self) h.

Definition ForEach_execute (self : ForEach) (h : history) : outcome pyval :=
  _get_next_value (fe_name self) (_values self) h.

Definition ParameterizedForEach_on_failure (self : ParameterizedForEach)
    (values : list pyval) (h : history) : outcome string :=
  _on_failure (pfe_name self) values h.

Definition ParameterizedForEach_execute (self : ParameterizedForEach)
    (values : list pyval) (h : history) : outcome pyval :=
  _get_next_value (pfe_name self) values h.
End ForEachBase.

(** [list.remove(x)]: drop the first element equal to [x];
    [None] stands for the [ValueError] raised when there is none. *)
Fixpoint list_remove (x : pyval) (l : list pyval) : option (list pyval) :=
  match l with
  | [] => None
  | y :: l' => if decide (y = x) then Some l'
               else option_map (cons y) (list_remove x l')
  end.

(** Modelled from the spec: [misc.sequence_minus] ([taskflow/utils/misc.py]
    is not part of this slice).  The spec: the remaining values are
    computed "by removing -- in order, one-for-one -- every value already
    present as a prior history item (set-difference that preserves
    multiplicity and original ordering of the remaining sequence)".  Each
    item of [seq2], in order, removes one occurrence (the first) from the
    result; an item with no occurrence left removes nothing. *)
Definition sequence_minus (seq1 seq2 : list pyval) : list pyval :=
  fold_left (fun result item =>
               match list_remove item result with
               | Some result' => result'
               | None => result
               end) seq2 seq1.

(** The number of elements of [l] equal to [v]. *)
Fixpoint occurrences (v : pyval) (l : list pyval) : nat :=
  match l with
  | [] => 0
  | y :: l' => (if decide (y = v) then 1 else 0) + occurrences v l'
  end.

End Retry.

(** ** taskflow/utils/reflection.py *)

Module Reflection.

(** A declared positional parameter: its name and its default, if any. *)
Record param : Type := Param { p_name : string; p_default : option pyval }.

(** The callables the helpers inspect.
    - [Function]: a [types.FunctionType] object, given by its declaration
      [def f(params, *varargs, **keywords)] and by its [__wrapped__]
      attribute when it has one;
    - [Method]: a [types.MethodType] object over [im_func]; [im_self] is
      the instance it is bound to, [None] for an unbound method;
    - [Class]: a type, with the value of its [__init__] attribute;
    - [Instance]: any other object, with the value of its [__call__]
      attribute ([None]: the attribute does not exist);
    - [Builtin]: a callable without Python code (built-in function, slot
      or method wrapper); its [__call__] is again such a wrapper. *)
Inductive pyobject : Type :=
| Function (params : list param) (varargs keywords : option string)
           (wrapped : option pyobject)
| Method (im_func : pyobject) (im_self : option nat)
| Class (init : pyobject)
| Instance (call : option pyobject)
| Builtin.

(** Python rejects a declaration in which a parameter without default
    follows one with a default ("non-default argument follows default
    argument"). *)
Fixpoint valid_params (ps : list param) : bool :=
  match ps with
  | [] => true
  | p :: ps' =>
      match p_default p with
      | None => valid_params ps'
      | Some _ => forallb (fun q => bool_decide (is_Some (p_default q))) ps'
      end
  end.

(** [inspect.ArgSpec] *)
Record ArgSpec : Type :=
  { args : list string;
    varargs_name : option string;
    keywords_name : option string;
    defaults : option (list pyval) }.

(** [func.func_defaults]: the tuple of the declared defaults, [None] when
    there is none. *)
Definition func_defaults (ps : list param) : option (list pyval) :=
  match omap p_default ps with
  | [] => None
  | ds => Some ds
  end.

(** [inspect.getargspec]: a method is looked through to its function;
    anything that is not a Python function is refused with [TypeError]. *)
Definition getargspec (func : pyobject) : outcome ArgSpec :=
  let func := match func with Method f _ => f | _ => func end in
  match func with
  | Function ps va kw _ =>
      Ret {| args := map p_name ps; varargs_name := va; keywords_name := kw;
             defaults := func_defaults ps |}
  | _ => Raise (TypeError "arg is not a Python function")
  end.

Definition ismethod (o : pyobject) : bool :=
  match o with Method _ _ => true | _ => false end.

Definition is_bound_method (method : pyobject) : bool :=
  if negb (ismethod method) then false
  else match method with
       | Method _ (Some _) => true
       | _ => false
       end.

(** [getattr(function, '__wrapped__', function)]; attribute lookup on a
    method falls through to its function. *)
Definition getattr_wrapped (function : pyobject) : pyobject :=
  match function with
  | Function _ _ _ (Some w) => w
  | Method (Function _ _ _ (Some w)) _ => w
  | _ => function
  end.

(** [function.__call__] *)
Definition getattr_call (function : pyobject) : outcome pyobject :=
  match function with
  | Instance (Some c) => Ret c
  | Instance None =>
      Raise (AttributeError "object has no attribute '__call__'")
  | _ => Ret Builtin
  end.

Definition _get_arg_spec (function : pyobject) : outcome (ArgSpec * bool) :=
  match function with
  | Class init =>
      match getargspec init with
      | Ret spec => Ret (spec, true)
      | Raise e => Raise e
      end
  | Function _ _ _ _ | Method _ _ =>
      let bound := is_bound_method function in
      match getargspec (getattr_wrapped function) with
      | Ret spec => Ret (spec, bound)
      | Raise e => Raise e
      end
  | _ =>
      match getattr_call function with
      | Ret call =>
          let bound := is_bound_method call in
          match getargspec call with
          | Ret spec => Ret (spec, bound)
          | Raise e => Raise e
          end
      | Raise e => Raise e
      end
  end.

(** [l[:-k]] for [k > 0] *)
Definition slice_until_neg {A : Type} (l : list A) (k : nat) : list A :=
  take (length l - k) l.

(** [l[1:]] *)
Definition slice_from_1 {A : Type} (l : list A) : list A := drop 1 l.

Definition get_required_callable_args (function : pyobject)
    : outcome (list string) :=
  match _get_arg_spec function with
  | Raise e => Raise e
  | Ret (argspec, bound) =>
      let f_args := args argspec in
      let f_args :=
        match defaults argspec with
        | Some (d :: ds) => slice_until_neg f_args (length (d :: ds))
        | _ => f_args
        end in
      let f_args := if bound then slice_from_1 f_args else f_args in
      Ret f_args
  end.

(** The specification's reading: the names, in declaration order, of the
    parameters declared without a default. *)
Definition required_names (ps : list param) : list string :=
  map p_name (filter (fun p => p_default p = None) ps).

End Reflection.

(** ** Task atoms *)

(** A progress callback, identified by a number. *)
Abbreviation callback := nat.

Module task_atom.

(** Modelled from the spec: the task/atom contract ([taskflow/task.py] is
    not part of this slice): a task has a [name], argument ([rebind]) and
    result ([save_as]) mappings, the hooks [pre_execute], [execute],
    [post_execute], [pre_revert], [revert], [post_revert], a progress-event
    notifier with listeners, and a [copy] operation.  [task_id] is the
    identity of the Python object; a hook is given by what a call of it
    does. *)
Record Task : Type :=
  { task_id : nat;
    task_name : string;
    rebind : gmap string string;
    save_as : option string;
    listeners : list callback;
    pre_execute : behaviour unit;
    execute : kwargs -> behaviour pyval;
    post_execute : behaviour unit;
    pre_revert : behaviour unit;
    revert : kwargs -> behaviour pyval;
    post_revert : behaviour unit }.

(** Modelled from the spec: the "two reserved keys holding the prior result
    and the accumulated failures mapping" of a reversion, declared in
    [taskflow/task.py]. *)
Definition REVERT_RESULT : string := "result".
Definition REVERT_FLOW_FAILURES : string := "flow_failures".

End task_atom.

Abbreviation Task := task_atom.Task.

(** ** taskflow/engines/action_engine/executor.py *)

Module Executor.

(** Execution and reversion events. *)
Definition EXECUTED : string := "executed".
Definition REVERTED : string := "reverted".

(** *** Running one task: [_execute_task] and [_revert_task] *)

(** What is observed while a task runs: the calls of its hooks, the
    (de)registrations on its notifier and the invocations of the progress
    callbacks. *)
Inductive hook_event : Type :=
| Register (cb : callback)
| Deregister (cb : callback)
| Notify (cb : callback) (progress : Q)
| Call_pre_execute
| Call_execute (arguments : kwargs)
| Call_post_execute
| Call_pre_revert
| Call_revert (arguments : kwargs)
| Call_post_revert.

(** The state a running task acts on: the listeners of [task.notifier] for
    the progress event, and the trace so far. *)
Record run_state : Type :=
  { registered : list callback; hook_trace : list hook_event }.

Definition record (ev : list hook_event) : M run_state unit :=
  fun s => (Ret tt, {| registered := registered s; hook_trace := hook_trace s ++ ev |}).

(** A progress notification reaches every registered listener, in
    registration order. *)
Definition notify (progress : Q) : M run_state unit :=
  fun s => record (map (fun cb => Notify cb progress) (registered s)) s.

Fixpoint notify_all (ps : list Q) : M run_state unit :=
  match ps with
  | [] => ret tt
  | p :: ps' => (notify p ;;; notify_all ps')%py
  end.

(** A call of a hook: its notifications, then its outcome. *)
Definition call_hook {A : Type} (ev : hook_event) (b : behaviour A) : M run_state A :=
  (record [ev] ;;; notify_all (emits b) ;;; fun s => (result_of b, s))%py.

Definition notifier_register (cb : callback) : M run_state unit :=
  fun s => (Ret tt, {| registered := registered s ++ [cb];
                       hook_trace := hook_trace s ++ [Register cb] |}).

Definition notifier_deregister (cb : callback) : M run_state unit :=
  fun s => (Ret tt, {| registered := filter (fun c => c <> cb) (registered s);
                       hook_trace := hook_trace s ++ [Deregister cb] |}).

(** Modelled from the spec: [notifier.register_deregister]
    ([taskflow/types/notifier.py] is not part of this slice): "register
    [progress_callback] (if given) on the task's progress-event channel for
    the duration of the call using scoped acquisition with guaranteed
    deregistration on every exit path (including exceptions)". *)
Definition register_deregister {A : Type} (cb : option callback)
    (body : M run_state A) : M run_state A :=
  match cb with
  | None => body
  | Some cb =>
      (notifier_register cb ;;;
       try_finally body (notifier_deregister cb))%py
  end.

Definition _execute_task (task : Task) (arguments : kwargs)
    (progress_callback : option callback) : M run_state (string * pyval) :=
  (result <-
     register_deregister progress_callback
       (try_finally
          (try_except
             (call_hook Call_pre_execute (task_atom.pre_execute task) ;;;
              call_hook (Call_execute arguments) (task_atom.execute task arguments))
             Exception
             (fun e => ret (PFailure e)))
          (call_hook Call_post_execute (task_atom.post_execute task))) ;;
   ret (EXECUTED, result))%py.

Definition _revert_task (task : Task) (arguments : kwargs)
    (result failures : pyval) (progress_callback : option callback)
    : M run_state (string * pyval) :=
  let arguments := <[task_atom.REVERT_RESULT := result]> arguments in
  let arguments := <[task_atom.REVERT_FLOW_FAILURES := failures]> arguments in
  (result <-
     register_deregister progress_callback
       (try_finally
          (try_except
             (call_hook Call_pre_revert (task_atom.pre_revert task) ;;;
              call_hook (Call_revert arguments) (task_atom.revert task arguments))
             Exception
             (fun e => ret (PFailure e)))
          (call_hook Call_post_revert (task_atom.post_revert task))) ;;
   ret (REVERTED, result))%py.

(** The state in which a task object starts to run: its notifier holds
    the listeners of the object. *)
Definition initial (task : Task) : run_state :=
  {| registered := task_atom.listeners task; hook_trace := [] |}.

Definition is_Notify (ev : hook_event) : bool :=
  match ev with Notify _ _ => true | _ => false end.

(** The listener invocations caused by the progress values [ps] while
    [regs] are registered. *)
Definition notifications (regs : list callback) (ps : list Q) : list hook_event :=
  flat_map (fun p => map (fun cb => Notify cb p) regs) ps.

(** The specification's reading of the hook sequence of an execution:
    "call [pre_execute()], then [execute] with the arguments, then always call
    [post_execute()] regardless of outcome"; [execute] is reached when
    [pre_execute] returns. *)
Definition execution_calls (task : Task) (arguments : kwargs)
    (regs : list callback) : list hook_event :=
  Call_pre_execute :: notifications regs (emits (task_atom.pre_execute task))
  ++ match result_of (task_atom.pre_execute task) with
     | Ret _ =>
         Call_execute arguments
         :: notifications regs (emits (task_atom.execute task arguments))
     | Raise _ => []
     end
  ++ Call_post_execute
     :: notifications regs (emits (task_atom.post_execute task)).

(** The outcome of the guarded block: [pre_execute()], then [execute]. *)
Definition guarded_outcome (task : Task) (arguments : kwargs) : outcome pyval :=
  match result_of (task_atom.pre_execute task) with
  | Ret _ => result_of (task_atom.execute task arguments)
  | Raise e => Raise e
  end.

(** *** Worker pools, futures and the parallel executors *)

Inductive pool_kind : Type := ThreadPool | ProcessPool.

(** The functions the executors submit. *)
Inductive func : Type := F_execute_task | F_revert_task.

(** A positional argument of a submission: an argument mapping or a
    value. *)
Inductive posarg : Type :=
| ArgMap (arguments : kwargs)
| ArgVal (v : pyval).

(** One submission, [pool.submit(func, task, *args, **kwargs)]. *)
Record job : Type :=
  { job_func : func;
    job_task : Task;
    job_args : list posarg;
    job_kwargs : gmap string (option callback) }.

Record pool : Type :=
  { kind : pool_kind;
    max_workers : nat;
    pending : list job;
    completed : list job;
    is_shutdown : bool }.

(** A future: the pool it belongs to and its [atom] attribute, once
    set. *)
Record future : Type := { fut_pool : nat; atom : option Task }.

Inductive pool_event : Type :=
| Created (p : nat) (k : pool_kind) (workers : nat)
| Submitted (p : nat) (j : job)
| Shutdown (p : nat) (wait : bool)
| Copied (original clone : nat).

(** The objects an executor shares with its caller: the pools and the
    futures, by reference, and the calls made on them. *)
Record pool_world : Type :=
  { pools : gmap nat pool;
    futures : gmap nat future;
    next_id : nat;
    optimal_thread_count : nat;
    pool_trace : list pool_event }.

(** A [ParallelTaskExecutor] object; [variant] tells the subclass
    ([ParallelThreadTaskExecutor] or [ParallelProcessTaskExecutor]). *)
Record ParallelTaskExecutor : Type :=
  { variant : pool_kind;
    _executor : option nat;
    _max_workers : option nat;
    _own_executor : bool }.

Record exec_state : Type := { this : ParallelTaskExecutor; env : pool_world }.

Definition __init__ (cls : pool_kind) (executor : option nat)
    (max_workers : option nat) : ParallelTaskExecutor :=
  {| variant := cls;
     _executor := executor;
     _max_workers := max_workers;
     _own_executor := bool_decide (executor = None) |}.

(** [self._executor = v] *)
Definition set_executor (v : option nat) : M exec_state unit :=
  fun s => (Ret tt,
            {| this := {| variant := variant (this s);
                          _executor := v;
                          _max_workers := _max_workers (this s);
                          _own_executor := _own_executor (this s) |};
               env := env s |}).

Definition with_env (f : pool_world -> pool_world) : M exec_state unit :=
  fun s => (Ret tt, {| this := this s; env := f (env s) |}).

(** [futures.ThreadPoolExecutor(max_workers=...)] or
    [futures.ProcessPoolExecutor(max_workers=...)], by the class of
    [self]: a new pool object. *)
Definition _create_executor (workers : nat) : M exec_state nat :=
  fun s =>
    let w := env s in
    let p := next_id w in
    let k := variant (this s) in
    (Ret p,
     {| this := this s;
        env := {| pools := <[p := {| kind := k; max_workers := workers;
                                     pending := []; completed := [];
                                     is_shutdown := false |}]> (pools w);
                  futures := futures w;
                  next_id := S p;
                  optimal_thread_count := optimal_thread_count w;
                  pool_trace := pool_trace w ++ [Created p k workers] |} |}).

(** Modelled from the spec: [pool.shutdown(wait=True)]
    ([taskflow/types/futures.py] is not part of this slice): it "shuts the
    pool down and blocks until all in-flight work completes". *)
Definition pool_shutdown (p : nat) (wait : bool) : M exec_state unit :=
  with_env (fun w =>
    {| pools := alter (fun q =>
                  {| kind := kind q; max_workers := max_workers q;
                     pending := if wait then [] else pending q;
                     completed := if wait then completed q ++ pending q
                                  else completed q;
                     is_shutdown := true |}) p (pools w);
       futures := futures w;
       next_id := next_id w;
       optimal_thread_count := optimal_thread_count w;
       pool_trace := pool_trace w ++ [Shutdown p wait] |}).

(** Modelled from the spec: [pool.submit(func, task, *args, **kwargs)]
    queues the call and returns a new future; a pool that was shut down
    accepts no work. *)
Definition pool_submit (p : nat) (j : job) : M exec_state nat :=
  fun s =>
    let w := env s in
    match pools w !! p with
    | Some q =>
        if is_shutdown q
        then (Raise (RuntimeError "cannot schedule new futures after shutdown"), s)
        else
          let fut := next_id w in
          (Ret fut,
           {| this := this s;
              env := {| pools := <[p := {| kind := kind q;
                                           max_workers := max_workers q;
                                           pending := pending q ++ [j];
                                           completed := completed q;
                                           is_shutdown := false |}]> (pools w);
                        futures := <[fut := {| fut_pool := p; atom := None |}]>
                                     (futures w);
                        next_id := S fut;
                        optimal_thread_count := optimal_thread_count w;
                        pool_trace := pool_trace w ++ [Submitted p j] |} |})
    | None => (Raise (RuntimeError "cannot schedule new futures after shutdown"), s)
    end.

(** [fut.atom = task] *)
Definition set_atom (fut : nat) (task : Task) : M exec_state unit :=
  with_env (fun w =>
    {| pools := pools w;
       futures := alter (fun f => {| fut_pool := fut_pool f; atom := Some task |})
                    fut (futures w);
       next_id := next_id w;
       optimal_thread_count := optimal_thread_count w;
       pool_trace := pool_trace w |}).

(** Modelled from the spec: [task.copy(retain_listeners)], "a [copy]
    operation that can optionally drop listeners": a new object with the
    fields of the task, its listeners emptied unless retained. *)
Definition clone_of (task : Task) (id : nat) (retain_listeners : bool) : Task :=
  {| task_atom.task_id := id;
     task_atom.task_name := task_atom.task_name task;
     task_atom.rebind := task_atom.rebind task;
     task_atom.save_as := task_atom.save_as task;
     task_atom.listeners :=
       if retain_listeners then task_atom.listeners task else [];
     task_atom.pre_execute := task_atom.pre_execute task;
     task_atom.execute := task_atom.execute task;
     task_atom.post_execute := task_atom.post_execute task;
     task_atom.pre_revert := task_atom.pre_revert task;
     task_atom.revert := task_atom.revert task;
     task_atom.post_revert := task_atom.post_revert task |}.

Definition task_copy (task : Task) (retain_listeners : bool) : M exec_state Task :=
  fun s =>
    let w := env s in
    (Ret (clone_of task (next_id w) retain_listeners),
     {| this := this s;
        env := {| pools := pools w;
                  futures := futures w;
                  next_id := S (next_id w);
                  optimal_thread_count := optimal_thread_count w;
                  pool_trace := pool_trace w
                                ++ [Copied (task_atom.task_id task) (next_id w)] |} |}).

(** [ParallelTaskExecutor._submit_task] *)
Definition ParallelTaskExecutor_submit_task (f : func) (task : Task)
    (a : list posarg) (kw : gmap string (option callback)) : M exec_state nat :=
  fun s =>
    match _executor (this s) with
    | None =>
        (Raise (AttributeError "'NoneType' object has no attribute 'submit'"), s)
    | Some p =>
        (fut <- pool_submit p {| job_func := f; job_task := task;
                                 job_args := a; job_kwargs := kw |} ;;
         set_atom fut task ;;;
         ret fut)%py s
    end.

(** [ParallelProcessTaskExecutor._submit_task] *)
Definition ParallelProcessTaskExecutor_submit_task (f : func) (task : Task)
    (a : list posarg) (kw : gmap string (option callback)) : M exec_state nat :=
  let kw := delete "progress_callback" kw in
  (clone <- task_copy task false ;;
   fut <- ParallelTaskExecutor_submit_task f clone a kw ;;
   set_atom fut task ;;;
   ret fut)%py.

(** [self._submit_task], resolved on the class of [self]. *)
Definition _submit_task (f : func) (task : Task)
    (a : list posarg) (kw : gmap string (option callback)) : M exec_state nat :=
  fun s =>
    match variant (this s) with
    | ThreadPool => ParallelTaskExecutor_submit_task f task a kw s
    | ProcessPool => ParallelProcessTaskExecutor_submit_task f task a kw s
    end.

Definition execute_task (task : Task) (task_uuid : string) (arguments : kwargs)
    (progress_callback : option callback) : M exec_state nat :=
  _submit_task F_execute_task task [ArgMap arguments]
    {["progress_callback" := progress_callback]}.

Definition revert_task (task : Task) (task_uuid : string) (arguments : kwargs)
    (result failures : pyval) (progress_callback : option callback)
    : M exec_state nat :=
  _submit_task F_revert_task task [ArgMap arguments; ArgVal result; ArgVal failures]
    {["progress_callback" := progress_callback]}.

Definition start : M exec_state unit :=
  fun s =>
    if _own_executor (this s) then
      let max_workers :=
        match _max_workers (this s) with
        | Some n => n
        | None => optimal_thread_count (env s)
        end in
      (p <- _create_executor max_workers ;; set_executor (Some p))%py s
    else (Ret tt, s).

Definition stop : M exec_state unit :=
  fun s =>
    if _own_executor (this s) then
      match _executor (this s) with
      | None =>
          (Raise (AttributeError "'NoneType' object has no attribute 'shutdown'"), s)
      | Some p => (pool_shutdown p true ;;; set_executor None)%py s
      end
    else (Ret tt, s).

(** What a worker does with a job: [func(task, *args, **kwargs)], the
    task object starting with its own listeners. *)
Definition run_job (j : job) : outcome (string * pyval) * run_state :=
  let cb := default None (job_kwargs j !! "progress_callback") in
  match job_func j, job_args j with
  | F_execute_task, [ArgMap a] =>
      _execute_task (job_task j) a cb (initial (job_task j))
  | F_revert_task, [ArgMap a; ArgVal r; ArgVal f] =>
      _revert_task (job_task j) a r f cb (initial (job_task j))
  | _, _ => (Raise (TypeError "wrong number of arguments"), initial (job_task j))
  end.

End Executor.

(** ** taskflow/engines/action_engine/task_action.py *)

Module TaskAction.

(** Modelled from the spec: the lifecycle states ([taskflow/states.py] is
    not part of this slice): [PENDING], [RUNNING], [SUCCESS], [FAILURE],
    [REVERTING], [REVERTED]. *)
Inductive state : Type :=
| PENDING | RUNNING | SUCCESS | FAILURE | REVERTING | REVERTED.

#[global] Instance state_eq_dec : EqDecision state.
Proof. solve_decision. Defined.

Definition RESET_TASK_STATES : list state := [PENDING].
Definition SAVE_RESULT_STATES : list state := [SUCCESS; FAILURE].
Definition ALREADY_FINISHED_STATES : list state := [SUCCESS].
Definition NEVER_RAN_STATES : list state := [PENDING].

(** [state in STATES] *)
Definition state_in (st : state) (states : list state) : bool :=
  bool_decide (st ∈ states).

(** What storage holds for one task: its state, its result ([PNone] when
    there is none) and its progress. *)
Record TaskDetail : Type :=
  { td_state : state; td_results : pyval; td_progress : Q }.

(** The calls an action makes on its collaborators: storage, the engine's
    notification hook, the task and the logger. *)
Inductive event : Type :=
| Storage_reset (uuid : string)
| Storage_save (uuid : string) (result : pyval) (st : state)
| Storage_set_task_state (uuid : string) (st : state)
| Storage_set_task_progress (uuid : string) (progress : Q)
| Engine_on_task_state_change (uuid : string) (st : state) (result : pyval)
| Task_bind
| Task_unbind
| Task_update_progress (progress : Q)
| Task_execute (arguments : kwargs)
| Task_revert (result : pyval) (arguments : kwargs)
| Log_exception.

(** The mutable world of an action: the engine's storage, keyed by task
    UUID; whether the action's progress listener is bound to the task; and
    the trace of the calls so far. *)
Record world : Type :=
  { storage : gmap string TaskDetail; bound : bool; trace : list event }.

(** The engine, as far as it is not in [world]:
    [engine.storage.fetch_mapped_args] reads the arguments of a task out
    of storage, or raises. *)
Record Engine : Type :=
  { fetch_mapped_args :
      gmap string string -> gmap string TaskDetail -> outcome kwargs }.

Record TaskAction : Type :=
  { _task : Task;
    _id : string;
    _result_mapping : option string;
    _args_mapping : gmap string string }.

Definition uuid (self : TaskAction) : string := _id self.

Definition log (ev : list event) : M world unit :=
  fun w => (Ret tt, {| storage := storage w; bound := bound w;
                       trace := trace w ++ ev |}).

(** *** Storage *)

(** Modelled from the spec: the storage backend contract
    ([taskflow/storage.py] is not part of this slice): [reset(uuid)],
    [save(uuid, result, state)], [set_task_state(uuid, state)],
    [set_task_progress(uuid, progress)], [get_task_state(uuid)],
    [get(uuid)].  [save] persists the result and the state, the other
    transitions "persist only the state marker", and [reset] is the
    "storage reset of prior results".  The spec is silent on a UUID that
    was never added; the operations are taken to refuse it with
    [NotFound], as the lookup by name does. *)
Definition storage_update (u : string) (f : TaskDetail -> TaskDetail)
    (ev : event) : M world unit :=
  fun w =>
    match storage w !! u with
    | Some td =>
        (Ret tt, {| storage := <[u := f td]> (storage w); bound := bound w;
                    trace := trace w ++ [ev] |})
    | None => (Raise (NotFound ("Unknown task: " +:+ u)), w)
    end.

Definition storage_read {A : Type} (u : string) (f : TaskDetail -> A)
    : M world A :=
  fun w =>
    match storage w !! u with
    | Some td => (Ret (f td), w)
    | None => (Raise (NotFound ("Unknown task: " +:+ u)), w)
    end.

Definition storage_reset (u : string) : M world unit :=
  storage_update u
    (fun td => {| td_state := td_state td; td_results := PNone;
                  td_progress := td_progress td |})
    (Storage_reset u).

Definition storage_save (u : string) (result : pyval) (st : state)
    : M world unit :=
  storage_update u
    (fun td => {| td_state := st; td_results := result;
                  td_progress := td_progress td |})
    (Storage_save u result st).

Definition storage_set_task_state (u : string) (st : state) : M world unit :=
  storage_update u
    (fun td => {| td_state := st; td_results := td_results td;
                  td_progress := td_progress td |})
    (Storage_set_task_state u st).

Definition storage_set_task_progress (u : string) (progress : Q)
    : M world unit :=
  storage_update u
    (fun td => {| td_state := td_state td; td_results := td_results td;
                  td_progress := progress |})
    (Storage_set_task_progress u progress).

Definition storage_get_task_state (u : string) : M world state :=
  storage_read u td_state.

Definition storage_get (u : string) : M world pyval :=
  storage_read u td_results.

Definition storage_fetch_mapped_args (engine : Engine)
    (mapping : gmap string string) : M world kwargs :=
  fun w => (fetch_mapped_args engine mapping (storage w), w).

(** [engine.on_task_state_change(self, state, result=result)] *)
Definition on_task_state_change (self : TaskAction) (st : state)
    (result : pyval) : M world unit :=
  log [Engine_on_task_state_change (uuid self) st result].

(** *** The action *)

Definition _change_state (self : TaskAction) (engine : Engine) (st : state)
    (result : pyval) (progress : option Q) : M world unit :=
  ((if state_in st RESET_TASK_STATES
    then storage_reset (uuid self) else ret tt) ;;;
   (if state_in st SAVE_RESULT_STATES
    then storage_save (uuid self) result st
    else storage_set_task_state (uuid self) st) ;;;
   (match progress with
    | Some p => storage_set_task_progress (uuid self) p
    | None => ret tt
    end) ;;;
   on_task_state_change self st result)%py.

Definition _on_update_progress (self : TaskAction) (progress : Q)
    : M world unit :=
  try_except
    (storage_set_task_progress (uuid self) progress)
    Exception
    (fun _ => log [Log_exception]).

(** Modelled from the spec: [task.update_progress(progress)] pushes the
    value to the task and notifies the listeners bound to the task's
    [update_progress] event; the listener of the action is among them
    between [bind] and [unbind]. *)
Definition task_update_progress (self : TaskAction) (progress : Q)
    : M world unit :=
  (log [Task_update_progress progress] ;;;
   fun w => if bound w then _on_update_progress self progress w
            else (Ret tt, w))%py.

Definition set_bound (b : bool) (ev : event) : M world unit :=
  fun w => (Ret tt, {| storage := storage w; bound := b;
                       trace := trace w ++ [ev] |}).

(** [task.bind('update_progress', self._on_update_progress, engine=engine)] *)
Definition task_bind : M world unit := set_bound true Task_bind.

(** [task.unbind('update_progress', self._on_update_progress)] *)
Definition task_unbind : M world unit := set_bound false Task_unbind.

Definition _autobind {A : Type} (body : M world A) : M world A :=
  try_finally (task_bind ;;; body)%py task_unbind.

Definition _force_state (self : TaskAction) (engine : Engine) (st : state)
    (progress : Q) (result : pyval) : M world unit :=
  (_change_state self engine st result (Some progress) ;;;
   task_update_progress self progress)%py.

Fixpoint update_progress_all (self : TaskAction) (ps : list Q) : M world unit :=
  match ps with
  | [] => ret tt
  | p :: ps' => (task_update_progress self p ;;; update_progress_all self ps')%py
  end.

(** A call of a hook of the task: the progress updates it makes, then its
    outcome. *)
Definition call {A : Type} (self : TaskAction) (ev : event) (b : behaviour A)
    : M world A :=
  (log [ev] ;;; update_progress_all self (emits b) ;;;
   fun w => (result_of b, w))%py.

(** [self._task.revert(result=result, **kwargs)]: Python refuses the call
    when [kwargs] holds a [result] of its own. *)
Definition call_revert (self : TaskAction) (result : pyval) (kw : kwargs)
    : M world pyval :=
  match kw !! "result" with
  | Some _ =>
      raise (TypeError "revert() got multiple values for keyword argument 'result'")
  | None =>
      call self (Task_revert result kw)
        (task_atom.revert (_task self) (<["result" := result]> kw))
  end.

(** Modelled from the spec: [excutils.save_and_reraise_exception]
    ([taskflow/openstack/common/excutils.py] is not part of this slice):
    the block runs and the saved exception is raised again, "preserving
    the original exception rather than the state-update exception if both
    occur". *)
Definition save_and_reraise_exception {A : Type} (saved : exn)
    (body : M world unit) : M world A :=
  fun w => match body w with (_, w') => (Raise saved, w') end.

Definition execute (self : TaskAction) (engine : Engine) : M world unit :=
  (st <- storage_get_task_state (uuid self) ;;
   if state_in st ALREADY_FINISHED_STATES then ret tt
   else
     _force_state self engine RUNNING 0 PNone ;;;
     result <-
       _autobind
         (try_except
            (kw <- storage_fetch_mapped_args engine (_args_mapping self) ;;
             call self (Task_execute kw) (task_atom.execute (_task self) kw))
            Exception
            (fun e =>
               let failure := PFailure e in
               _change_state self engine FAILURE failure None ;;;
               raise e)) ;;
     _force_state self engine SUCCESS 1 result)%py.

Definition revert (self : TaskAction) (engine : Engine) : M world unit :=
  (st <- storage_get_task_state (uuid self) ;;
   if state_in st NEVER_RAN_STATES then ret tt
   else
     _force_state self engine REVERTING 0 PNone ;;;
     _autobind
       (kw <- storage_fetch_mapped_args engine (_args_mapping self) ;;
        try_except
          (result <- storage_get (_id self) ;;
           call_revert self result kw ;;;
           ret tt)
          Exception
          (fun e =>
             save_and_reraise_exception e
               (_change_state self engine FAILURE PNone None))) ;;;
     _force_state self engine REVERTED 1 PNone ;;;
     _force_state self engine PENDING 0 PNone)%py.

(** *** What the calls amount to for a task known to storage *)

(** The calls of one [task.update_progress(progress)], the listener of
    the action being bound or not. *)
Definition update_events (is_bound : bool) (u : string) (progress : Q)
    : list event :=
  Task_update_progress progress
  :: (if is_bound then [Storage_set_task_progress u progress] else []).

Definition set_progress (td : TaskDetail) (progress : Q) : TaskDetail :=
  {| td_state := td_state td; td_results := td_results td;
     td_progress := progress |}.

(** The detail of a task after [_change_state]. *)
Definition changed (td : TaskDetail) (st : state) (result : pyval)
    (progress : option Q) : TaskDetail :=
  {| td_state := st;
     td_results := if state_in st SAVE_RESULT_STATES then result
                   else if state_in st RESET_TASK_STATES then PNone
                        else td_results td;
     td_progress := default (td_progress td) progress |}.

(** The calls of one [_change_state]. *)
Definition change_events (u : string) (st : state) (result : pyval)
    (progress : option Q) : list event :=
  (if state_in st RESET_TASK_STATES then [Storage_reset u] else [])
  ++ [if state_in st SAVE_RESULT_STATES then Storage_save u result st
      else Storage_set_task_state u st]
  ++ match progress with
     | Some p => [Storage_set_task_progress u p]
     | None => []
     end
  ++ [Engine_on_task_state_change u st result].

(** Is the call a transition of some task to state [s]? *)
Definition is_transition (s : state) (ev : event) : bool :=
  match ev with
  | Storage_save _ _ s' => bool_decide (s' = s)
  | Storage_set_task_state _ s' => bool_decide (s' = s)
  | Engine_on_task_state_change _ s' _ => bool_decide (s' = s)
  | _ => false
  end.

End TaskAction.

(** * Further parts of the modules *)

(** ** taskflow/retry.py: the counting controller *)

Module RetryControllers.
Import Retry.

(** [Times(attempts)]: [attempts] is whatever integer the caller gave. *)
Record Times : Type := { times_name : string; _attempts : Z }.

Definition Times_on_failure (self : Times) (h : history) : string :=
  if (Z.of_nat (length h) <? _attempts self)%Z then RETRY else REVERT.

Definition Times_execute (self : Times) (h : history) : Z :=
  (Z.of_nat (length h) + 1)%Z.

(** One application of [result.remove(item)] that ignores a missing
    item, the step [sequence_minus] folds over the history. *)
Definition remove_once (result : list pyval) (item : pyval) : list pyval :=
  default result (list_remove item result).

End RetryControllers.

(** ** taskflow/utils/reflection.py: keyword acceptance and names *)

Module ReflectionMore.
Import Reflection.

(** [bool(argspec.keywords)]: the name of the [**] parameter, when there
    is one, is a non-empty string. *)
Definition accepts_kwargs (function : pyobject) : outcome bool :=
  match _get_arg_spec function with
  | Raise e => Raise e
  | Ret (argspec, _bound) =>
      Ret match keywords_name argspec with
          | Some name => negb (String.eqb name "")
          | None => false
          end
  end.

(** A class, as far as its name goes. *)
Record pyclass : Type := { __module__ : string; __name__ : string }.

(** A reference to a class that the helpers compare with [type] by
    identity ([is type]): the class [type] itself, or another class. *)
Inductive class_ref : Type :=
| the_type
| a_class (c : pyclass).

(** The objects the naming helpers tell apart.
    - [AClass meta c]: the class [c], an instance of [type], where [meta]
      is [type(c)]: [type] itself, or a metaclass (a subclass of [type],
      such as [abc.ABCMeta], the metaclass of [taskflow.retry.Retry] and
      its subclasses);
    - [AnInstance c]: an object of type [c] that is no instance of [type],
      no function and no method (an instance of a class, or an old-style
      class, whose type is [classobj]);
    - [AFunction m n]: the function [n] of module [m];
    - [AMethod k c n]: the method [n], with [im_class] [k] and, for the
      case that [k] is [type], [im_self] [c] (a class method bound to a
      class [c] whose type is [type]). *)
Inductive named : Type :=
| AClass (meta : class_ref) (c : pyclass)
| AnInstance (c : pyclass)
| AFunction (module name : string)
| AMethod (im_class : class_ref) (im_self : pyclass) (name : string).

Definition type_type : pyclass :=
  {| __module__ := "__builtin__"; __name__ := "type" |}.

Definition function_type : pyclass :=
  {| __module__ := "__builtin__"; __name__ := "function" |}.

Definition instancemethod_type : pyclass :=
  {| __module__ := "__builtin__"; __name__ := "instancemethod" |}.

(** [type(obj)] *)
Definition type_of (obj : named) : class_ref :=
  match obj with
  | AClass meta _ => meta
  | AnInstance c => a_class c
  | AFunction _ _ => a_class function_type
  | AMethod _ _ _ => a_class instancemethod_type
  end.

(** The class a reference stands for. *)
Definition deref (k : class_ref) : pyclass :=
  match k with
  | the_type => type_type
  | a_class c => c
  end.

(** ['.'.join(parts)] *)
Fixpoint join_dot (parts : list string) : string :=
  match parts with
  | [] => ""
  | [p] => p
  | p :: rest => p +:+ "." +:+ join_dot rest
  end.

(** [isinstance(obj, type)] holds of the classes, whatever their
    metaclass, and of no other object; those are replaced by their
    type. *)
Definition get_class_name (obj : named) : string :=
  let obj :=
    match obj with
    | AClass _ c => c
    | _ => deref (type_of obj)
    end in
  join_dot [__module__ obj; __name__ obj].

(** The branches of [get_callable_name]: an object with an [im_class]
    (a method), where [im_class] gives way to [im_self] when it is
    [type]; a function; and anything else, named after its type, or after
    itself when its type is [type] and nothing else. *)
Definition get_callable_name (function : named) : string :=
  match function with
  | AMethod k im_self name =>
      let im_class :=
        match k with the_type => im_self | a_class c => c end in
      join_dot [__module__ im_class; __name__ im_class; name]
  | AFunction m n => join_dot [m; n]
  | AClass meta c =>
      let im_class :=
        match type_of function with the_type => c | a_class m => m end in
      join_dot [__module__ im_class; __name__ im_class]
  | AnInstance c =>
      let im_class := deref (type_of function) in
      join_dot [__module__ im_class; __name__ im_class]
  end.

End ReflectionMore.

(** ** taskflow/engines/action_engine/executor.py: reversion and life cycle *)

Module ExecutorMore.
Import Executor.

(** The hook sequence of a reversion, [injected] being the arguments
    [revert] is called with. *)
Definition reversion_calls (task : Task) (injected : kwargs)
    (regs : list callback) : list hook_event :=
  Call_pre_revert :: notifications regs (emits (task_atom.pre_revert task))
  ++ match result_of (task_atom.pre_revert task) with
     | Ret _ =>
         Call_revert injected
         :: notifications regs (emits (task_atom.revert task injected))
     | Raise _ => []
     end
  ++ Call_post_revert
     :: notifications regs (emits (task_atom.post_revert task)).

(** A call of [start()] or [stop()]. *)
Inductive lifecycle : Type := Start | Stop.

Fixpoint run_lifecycle (ops : list lifecycle) : M exec_state unit :=
  match ops with
  | [] => ret tt
  | op :: ops' =>
      (match op with Start => start | Stop => stop end ;;;
       run_lifecycle ops')%py
  end.

(** One submission for execution: the task, its arguments and the
    progress callback. *)
Record submission : Type :=
  { sub_task : Task; sub_arguments : kwargs; sub_callback : option callback }.

(** [execute_task] for each submission in turn, collecting the futures. *)
Fixpoint execute_tasks (subs : list submission) : M exec_state (list nat) :=
  match subs with
  | [] => ret []
  | sub :: subs' =>
      (fut <- execute_task (sub_task sub) "" (sub_arguments sub)
                (sub_callback sub) ;;
       futs <- execute_tasks subs' ;;
       ret (fut :: futs))%py
  end.

(** The job the base executor queues for a submission. *)
Definition job_of (sub : submission) : job :=
  {| job_func := F_execute_task;
     job_task := sub_task sub;
     job_args := [ArgMap (sub_arguments sub)];
     job_kwargs := {["progress_callback" := sub_callback sub]} |}.

End ExecutorMore.

(** * Sample inputs *)

Module Samples.

Definition quiet {A : Type} (o : outcome A) : behaviour A := Behaviour [] o.

(** A task whose hooks all return; [execute] reports progress twice and
    returns [5]. *)
Definition plain_task : Task :=
  {| task_atom.task_id := 0;
     task_atom.task_name := "plain";
     task_atom.rebind := ∅;
     task_atom.save_as := None;
     task_atom.listeners := [7];
     task_atom.pre_execute := quiet (Ret tt);
     task_atom.execute := fun _ => Behaviour [0.5%Q; 1%Q] (Ret (PInt 5));
     task_atom.post_execute := quiet (Ret tt);
     task_atom.pre_revert := quiet (Ret tt);
     task_atom.revert := fun _ => quiet (Ret PNone);
     task_atom.post_revert := quiet (Ret tt) |}.

(** A task whose [pre_execute] raises [ValueError]. *)
Definition failing_pre_task : Task :=
  {| task_atom.task_id := 1;
     task_atom.task_name := "failing_pre";
     task_atom.rebind := ∅;
     task_atom.save_as := None;
     task_atom.listeners := [];
     task_atom.pre_execute := quiet (Raise (ValueError "boom"));
     task_atom.execute := fun _ => quiet (Ret (PInt 1));
     task_atom.post_execute := quiet (Ret tt);
     task_atom.pre_revert := quiet (Ret tt);
     task_atom.revert := fun _ => quiet (Ret PNone);
     task_atom.post_revert := quiet (Ret tt) |}.

(** A task whose [execute] and [revert] raise [ValueError]. *)
Definition failing_task : Task :=
  {| task_atom.task_id := 2;
     task_atom.task_name := "failing";
     task_atom.rebind := ∅;
     task_atom.save_as := None;
     task_atom.listeners := [];
     task_atom.pre_execute := quiet (Ret tt);
     task_atom.execute := fun _ => quiet (Raise (ValueError "boom"));
     task_atom.post_execute := quiet (Ret tt);
     task_atom.pre_revert := quiet (Ret tt);
     task_atom.revert := fun _ => Behaviour [0.5%Q] (Raise (ValueError "boom"));
     task_atom.post_revert := quiet (Ret tt) |}.

(** A platform without pools yet. *)
Definition empty_world : Executor.pool_world :=
  {| Executor.pools := ∅;
     Executor.futures := ∅;
     Executor.next_id := 0;
     Executor.optimal_thread_count := 5;
     Executor.pool_trace := [] |}.

(** A process pool made by the caller, under reference [0]. *)
Definition shared_world : Executor.pool_world :=
  {| Executor.pools :=
       {[ 0 := {| Executor.kind := Executor.ProcessPool;
                  Executor.max_workers := 2;
                  Executor.pending := [];
                  Executor.completed := [];
                  Executor.is_shutdown := false |} ]};
     Executor.futures := ∅;
     Executor.next_id := 1;
     Executor.optimal_thread_count := 5;
     Executor.pool_trace := [] |}.

(** An engine whose tasks take no arguments. *)
Definition no_arguments : TaskAction.Engine :=
  {| TaskAction.fetch_mapped_args := fun _ _ => Ret ∅ |}.

Definition action_of (task : Task) : TaskAction.TaskAction :=
  {| TaskAction._task := task;
     TaskAction._id := "uuid-1";
     TaskAction._result_mapping := task_atom.save_as task;
     TaskAction._args_mapping := task_atom.rebind task |}.

(** Storage holding one task, in the given state and with the given
    result. *)
Definition stored (st : TaskAction.state) (result : pyval) (progress : Q)
    : TaskAction.world :=
  {| TaskAction.storage :=
       {[ "uuid-1" := {| TaskAction.td_state := st;
                         TaskAction.td_results := result;
                         TaskAction.td_progress := progress |} ]};
     TaskAction.bound := false;
     TaskAction.trace := [] |}.

End Samples.

Module MoreSamples.

(** An engine that cannot find the arguments of its tasks. *)
Definition missing_arguments : TaskAction.Engine :=
  {| TaskAction.fetch_mapped_args :=
       fun _ _ => Raise (NotFound "Name 'x' is not mapped") |}.

(** A task whose [execute] and [revert] are interrupted from the
    keyboard. *)
Definition interrupted_task : Task :=
  {| task_atom.task_id := 3;
     task_atom.task_name := "interrupted";
     task_atom.rebind := ∅;
     task_atom.save_as := None;
     task_atom.listeners := [];
     task_atom.pre_execute := Samples.quiet (Ret tt);
     task_atom.execute := fun _ => Samples.quiet (Raise KeyboardInterrupt);
     task_atom.post_execute := Samples.quiet (Ret tt);
     task_atom.pre_revert := Samples.quiet (Ret tt);
     task_atom.revert := fun _ => Samples.quiet (Raise KeyboardInterrupt);
     task_atom.post_revert := Samples.quiet (Ret tt) |}.

(** An engine whose tasks are all given an argument named [result]. *)
Definition result_argument : TaskAction.Engine :=
  {| TaskAction.fetch_mapped_args := fun _ _ => Ret {["result" := PInt 0]} |}.

End MoreSamples.

(** * Properties *)

(** ** Retry controllers *)

Module RetryFacts.
Import Retry.

Lemma list_remove_sublist (x : pyval) (l l' : list pyval) :
  list_remove x l = Some l' -> l' `sublist_of` l.
Proof.
  revert l'. induction l as [|y l IH]; intros l' H; simpl in H.
  - discriminate.
  - destruct (decide (y = x)).
    + inversion H; subst. by apply sublist_cons.
    + destruct (list_remove x l) as [r|]; simpl in H; [|discriminate].
      inversion H; subst. apply sublist_skip. by apply IH.
Qed.

Lemma occurrences_list_remove (x v : pyval) (l l' : list pyval) :
  list_remove x l = Some l' ->
  occurrences v l' = occurrences v l - (if decide (x = v) then 1 else 0).
Proof.
  revert l'. induction l as [|y l IH]; intros l' H; simpl in H.
  - discriminate.
  - destruct (decide (y = x)) as [->|Hne].
    + inversion H; subst. simpl. destruct (decide (x = v)); lia.
    + destruct (list_remove x l) as [r|] eqn:E; simpl in H; [|discriminate].
      inversion H; subst. simpl. rewrite (IH r eq_refl).
      destruct (decide (y = v)) as [->|]; destruct (decide (x = v)) as [->|];
        congruence || lia.
Qed.

Lemma list_remove_None (x : pyval) (l : list pyval) :
  list_remove x l = None -> occurrences x l = 0.
Proof.
  induction l as [|y l IH]; simpl; [done|].
  destruct (decide (y = x)); [discriminate|].
  destruct (list_remove x l); [discriminate|]. intros _. by rewrite IH.
Qed.

Lemma sequence_minus_cons (values : list pyval) (item : pyval) (its : list pyval) :
  sequence_minus values (item :: its) =
  sequence_minus (default values (list_remove item values)) its.
Proof. unfold sequence_minus. simpl. by destruct (list_remove item values). Qed.

(** The order of the surviving elements is the original one. *)
Lemma sequence_minus_sublist (values its : list pyval) :
  sequence_minus values its `sublist_of` values.
Proof.
  revert values. induction its as [|item its IH]; intros values.
  - reflexivity.
  - rewrite sequence_minus_cons. etrans; [apply IH|].
    destruct (list_remove item values) as [r|] eqn:E; simpl.
    + by eapply list_remove_sublist.
    + reflexivity.
Qed.

(** One-for-one: each history item cancels one occurrence at most. *)
Lemma sequence_minus_occurrences (v : pyval) (values its : list pyval) :
  occurrences v (sequence_minus values its) =
  occurrences v values - occurrences v its.
Proof.
  revert values. induction its as [|item its IH]; intros values.
  - simpl. lia.
  - rewrite sequence_minus_cons, IH. simpl.
    destruct (list_remove item values) as [r|] eqn:E; simpl.
    + rewrite (occurrences_list_remove item v values r E).
      destruct (decide (item = v)); lia.
    + apply list_remove_None in E.
      destruct (decide (item = v)) as [->|]; lia.
Qed.

Lemma occurrences_nil (l : list pyval) :
  (forall v, occurrences v l = 0) -> l = [].
Proof.
  destruct l as [|y l]; [done|]. intros H. specialize (H y). simpl in H.
  destruct (decide (y = y)); [lia|congruence].
Qed.

(** Nothing remains exactly when every candidate value occurs among the
    history's results at least as often as among the candidates. *)
Lemma no_remaining_iff (values its : list pyval) :
  sequence_minus values its = [] <->
  forall v, occurrences v values <= occurrences v its.
Proof.
  split.
  - intros H v. pose proof (sequence_minus_occurrences v values its) as Ho.
    rewrite H in Ho. simpl in Ho. lia.
  - intros H. apply occurrences_nil. intros v.
    rewrite sequence_minus_occurrences. specialize (H v). lia.
Qed.

Lemma _on_failure_cases (sm : list pyval -> list pyval -> list pyval)
    (name : string) (values : list pyval) (h : history) :
  _on_failure sm name values h =
  Ret (if bool_decide (sm values (items h) = []) then REVERT else RETRY).
Proof.
  unfold _on_failure, _get_next_value.
  destruct (sm values (items h)); reflexivity.
Qed.

(** C8.  For a [ForEach] with candidate sequence [values] (and a
    [ParameterizedForEach] called with [values]) and every history, the
    remaining values are [values] with one occurrence removed for each
    history result, one-for-one: they are a subsequence of [values] (the
    original order survives) and every value keeps its number of
    occurrences less the number of times it is a history result.
    [on_failure] returns [RETRY] exactly when a value remains and [REVERT]
    exactly when none does, and when a value remains [execute] returns the
    first remaining one. *)
Theorem ForEach_remaining_values (name : string) (values : list pyval)
    (h : history) :
  sequence_minus values (items h) `sublist_of` values
  /\ (forall v,
        occurrences v (sequence_minus values (items h)) =
        occurrences v values - occurrences v (items h))
  /\ (ForEach_on_failure sequence_minus
         {| fe_name := name; _values := values |} h = Ret RETRY
       <-> sequence_minus values (items h) <> [])
  /\ (ForEach_on_failure sequence_minus
         {| fe_name := name; _values := values |} h = Ret REVERT
       <-> sequence_minus values (items h) = [])
  /\ (forall first rest,
        sequence_minus values (items h) = first :: rest ->
        ForEach_execute sequence_minus
          {| fe_name := name; _values := values |} h = Ret first)
  /\ (ParameterizedForEach_on_failure sequence_minus
         {| pfe_name := name |} values h = Ret RETRY
       <-> sequence_minus values (items h) <> [])
  /\ (ParameterizedForEach_on_failure sequence_minus
         {| pfe_name := name |} values h = Ret REVERT
       <-> sequence_minus values (items h) = [])
  /\ (forall first rest,
        sequence_minus values (items h) = first :: rest ->
        ParameterizedForEach_execute sequence_minus
          {| pfe_name := name |} values h = Ret first).
Proof.
  assert (Hdec : forall o : outcome string,
             o = Ret (if bool_decide (sequence_minus values (items h) = [])
                      then REVERT else RETRY) ->
             (o = Ret RETRY <-> sequence_minus values (items h) <> [])
             /\ (o = Ret REVERT <-> sequence_minus values (items h) = [])).
  { intros o ->. case_bool_decide as E.
    - split; split; try done; intros; exfalso; congruence.
    - split; split; try done; intros; exfalso; congruence. }
  assert (Hex : forall nm first rest,
             sequence_minus values (items h) = first :: rest ->
             _get_next_value sequence_minus nm values h = Ret first).
  { intros nm first rest E. unfold _get_next_value. by rewrite E. }
  pose proof (Hdec _ (_on_failure_cases sequence_minus name values h)) as [H1 H2].
  split; [apply sequence_minus_sublist|].
  split; [intros v; apply sequence_minus_occurrences|].
  unfold ForEach_on_failure, ForEach_execute, ParameterizedForEach_on_failure,
    ParameterizedForEach_execute; simpl.
  repeat split; try apply H1; try apply H2; eauto.
Qed.

Lemma ForEach_remaining_values_witness :
  ForEach_execute sequence_minus
    {| fe_name := "foreach"; _values := [PInt 1; PInt 2; PInt 3] |}
    [(PInt 1, ∅)] = Ret (PInt 2).
Proof.
  apply (proj1 (proj2 (proj2 (proj2 (proj2
           (ForEach_remaining_values "foreach" [PInt 1; PInt 2; PInt 3]
              [(PInt 1, ∅)])))))
           (PInt 2) [PInt 3]).
  reflexivity.
Defined.

(** The specification's example: with values [1, 2, 3], a history holding
    [1] gives [RETRY] and the value [2]; once all three occur, in any
    order, the decision is [REVERT]. *)
Example ForEach_123_retry :
  ForEach_on_failure sequence_minus
    {| fe_name := "foreach"; _values := [PInt 1; PInt 2; PInt 3] |}
    [(PInt 1, ∅)] = Ret RETRY.
Proof. reflexivity. Qed.

Example ForEach_123_revert :
  ForEach_on_failure sequence_minus
    {| fe_name := "foreach"; _values := [PInt 1; PInt 2; PInt 3] |}
    [(PInt 3, ∅); (PInt 1, ∅); (PInt 2, ∅)] = Ret REVERT.
Proof. reflexivity. Qed.

(** A value listed twice is tried twice. *)
Example ForEach_duplicate_value :
  ForEach_execute sequence_minus
    {| fe_name := "foreach"; _values := [PInt 1; PInt 1] |}
    [(PInt 1, ∅)] = Ret (PInt 1).
Proof. reflexivity. Qed.

(** C10.  Whatever helper computes the remaining values: when none
    remains, [execute] of a [ForEach] or a [ParameterizedForEach] raises
    [NotFound] instead of returning a value; and [execute] returns normally
    on given values and history exactly when [on_failure] returns [RETRY]
    on them. *)
Theorem execute_raises_NotFound
    (helper : list pyval -> list pyval -> list pyval)
    (name : string) (values : list pyval) (h : history) :
  (helper values (items h) = [] ->
   exists msg,
     ForEach_execute helper {| fe_name := name; _values := values |} h
     = Raise (NotFound msg)
     /\ ParameterizedForEach_execute helper {| pfe_name := name |} values h
        = Raise (NotFound msg))
  /\ (returns (ForEach_execute helper
                 {| fe_name := name; _values := values |} h) = true
       <-> ForEach_on_failure helper
             {| fe_name := name; _values := values |} h = Ret RETRY)
  /\ (returns (ParameterizedForEach_execute helper
                 {| pfe_name := name |} values h) = true
       <-> ParameterizedForEach_on_failure helper
             {| pfe_name := name |} values h = Ret RETRY).
Proof.
  unfold ForEach_on_failure, ForEach_execute, ParameterizedForEach_on_failure,
    ParameterizedForEach_execute, _on_failure, _get_next_value; simpl.
  destruct (helper values (items h)) as [|first rest]; simpl.
  - split; [intros _; eexists; split; reflexivity|].
    split; split; intros H; discriminate H.
  - split; [intros H; discriminate H|]. split; split; reflexivity.
Qed.

Lemma execute_raises_NotFound_witness :
  exists msg,
    ForEach_execute sequence_minus
      {| fe_name := "foreach"; _values := [PInt 1; PInt 2] |}
      [(PInt 2, ∅); (PInt 1, ∅)] = Raise (NotFound msg)
    /\ ParameterizedForEach_execute sequence_minus
         {| pfe_name := "foreach" |} [PInt 1; PInt 2]
         [(PInt 2, ∅); (PInt 1, ∅)] = Raise (NotFound msg).
Proof.
  apply (proj1 (execute_raises_NotFound sequence_minus "foreach"
                  [PInt 1; PInt 2] [(PInt 2, ∅); (PInt 1, ∅)])).
  reflexivity.
Defined.

End RetryFacts.

(** ** Reflection helpers *)

Module ReflectionFacts.
Import Reflection.

Lemma all_defaulted (ps : list param) :
  forallb (fun q => bool_decide (is_Some (p_default q))) ps = true ->
  length (omap p_default ps) = length ps /\ required_names ps = [].
Proof.
  unfold required_names.
  induction ps as [|p ps IH]; csimpl; [done|].
  intros [Hp Hps]%andb_prop. apply bool_decide_eq_true in Hp as [d Hd].
  destruct (IH Hps) as [IH1 IH2]. rewrite Hd. csimpl. split; [lia|].
  rewrite filter_cons_False; [done|]. rewrite Hd. discriminate.
Qed.

Lemma length_defaults_le (ps : list param) :
  length (omap p_default ps) <= length ps.
Proof.
  induction ps as [|p ps IH]; csimpl; [lia|].
  destruct (p_default p); csimpl; lia.
Qed.

(** Dropping as many trailing names as there are defaults leaves the
    names declared without default. *)
Lemma undefaulted_prefix (ps : list param) :
  valid_params ps = true ->
  take (length ps - length (omap p_default ps)) (map p_name ps)
  = required_names ps.
Proof.
  induction ps as [|p ps IH]; csimpl; [done|].
  destruct (p_default p) as [d|] eqn:Hd; intros Hv.
  - destruct (all_defaulted ps Hv) as [Hlen Hreq]. csimpl. rewrite Hlen.
    replace (length ps - length ps) with 0 by lia.
    unfold required_names in *. rewrite filter_cons_False; [|rewrite Hd; discriminate].
    rewrite Hreq. by destruct (length ps).
  - pose proof (length_defaults_le ps).
    replace (S (length ps) - length (omap p_default ps))
      with (S (length ps - length (omap p_default ps))) by lia.
    csimpl. unfold required_names in *.
    rewrite filter_cons_True by done. csimpl. f_equal. by apply IH.
Qed.

(** The names kept for an argument specification read off a valid
    declaration. *)
Lemma trimmed_args (ps : list param) :
  valid_params ps = true ->
  match func_defaults ps with
  | Some (d :: ds) => slice_until_neg (map p_name ps) (length (d :: ds))
  | _ => map p_name ps
  end = required_names ps.
Proof.
  intros Hv. pose proof (undefaulted_prefix ps Hv) as H.
  unfold func_defaults, slice_until_neg.
  rewrite length_map. destruct (omap p_default ps) as [|d ds] eqn:E.
  - csimpl in H. rewrite Nat.sub_0_r in H.
    rewrite <- H. rewrite <- (length_map p_name ps). by rewrite take_ge.
  - exact H.
Qed.

Lemma required_names_tail (p : param) (ps : list param) :
  valid_params (p :: ps) = true ->
  slice_from_1 (required_names (p :: ps)) = required_names ps.
Proof.
  csimpl. unfold slice_from_1, required_names.
  destruct (p_default p) as [d|] eqn:Hd; intros Hv.
  - rewrite filter_cons_False; [|rewrite Hd; discriminate].
    destruct (all_defaulted ps Hv) as [_ Hreq]. unfold required_names in Hreq.
    by rewrite Hreq.
  - rewrite filter_cons_True by done. csimpl. by rewrite drop_0.
Qed.

Lemma required_names_strip (ps : list param) :
  valid_params ps = true ->
  slice_from_1 (required_names ps) = required_names (tail ps).
Proof.
  destruct ps as [|p ps]; [done|]. apply required_names_tail.
Qed.

(** C9.  For a plain function (a function object that does not redirect
    to another callable through [__wrapped__]) of valid declaration,
    [get_required_callable_args] returns the names, in declaration order,
    of the positional parameters declared without a default.  For a bound
    method, a class (inspected through its initializer, be it an unbound
    method or a function) and a callable object (inspected through its
    call operator, a bound method), the leading, implicit parameter is
    stripped in addition: the names are those required among the
    parameters after the first. *)
Theorem get_required_callable_args_spec (ps : list param)
    (va kw : option string) (im_self : nat) :
  valid_params ps = true ->
  get_required_callable_args (Function ps va kw None)
    = Ret (required_names ps)
  /\ get_required_callable_args
       (Method (Function ps va kw None) (Some im_self))
     = Ret (required_names (tail ps))
  /\ get_required_callable_args
       (Class (Method (Function ps va kw None) None))
     = Ret (required_names (tail ps))
  /\ get_required_callable_args (Class (Function ps va kw None))
     = Ret (required_names (tail ps))
  /\ get_required_callable_args
       (Instance (Some (Method (Function ps va kw None) (Some im_self))))
     = Ret (required_names (tail ps)).
Proof.
  intros Hv.
  pose proof (trimmed_args ps Hv) as Ht.
  pose proof (required_names_strip ps Hv) as Hs.
  unfold get_required_callable_args; cbn [_get_arg_spec getargspec
    getattr_wrapped getattr_call is_bound_method ismethod negb args defaults].
  rewrite Ht. rewrite Hs. repeat split; reflexivity.
Qed.

(** The specification's example: [def f(a, b, c=1)] and the same
    declaration with a leading [self]. *)
Lemma get_required_callable_args_spec_witness :
  get_required_callable_args
    (Function [Param "a" None; Param "b" None; Param "c" (Some (PInt 1))]
       None None None) = Ret ["a"; "b"]
  /\ get_required_callable_args
       (Method
          (Function [Param "self" None; Param "a" None; Param "b" None;
                     Param "c" (Some (PInt 1))] None None None) (Some 0))
     = Ret ["a"; "b"].
Proof.
  split.
  - apply (proj1 (get_required_callable_args_spec
             [Param "a" None; Param "b" None; Param "c" (Some (PInt 1))]
             None None 0 eq_refl)).
  - apply (proj1 (proj2 (get_required_callable_args_spec
             [Param "self" None; Param "a" None; Param "b" None;
              Param "c" (Some (PInt 1))] None None 0 eq_refl))).
Defined.

(** A function carrying [__wrapped__] is inspected through the callable
    it wraps: the names are those of the wrapped declaration. *)
Lemma get_required_callable_args_wrapped (ps ps' : list param)
    (va kw va' kw' : option string) (w : option pyobject) :
  valid_params ps' = true ->
  get_required_callable_args
    (Function ps va kw (Some (Function ps' va' kw' w)))
  = Ret (required_names ps').
Proof.
  intros Hv. pose proof (trimmed_args ps' Hv) as Ht.
  unfold get_required_callable_args; cbn [_get_arg_spec getargspec
    getattr_wrapped is_bound_method ismethod negb args defaults].
  by rewrite Ht.
Qed.

(** An unbound method keeps its leading parameter. *)
Example unbound_method_keeps_self :
  get_required_callable_args
    (Method (Function [Param "self" None; Param "a" None] None None None) None)
  = Ret ["self"; "a"].
Proof. reflexivity. Qed.

(** A class without a Python initializer has no signature to inspect. *)
Example class_without_init :
  returns (get_required_callable_args (Class Builtin)) = false.
Proof. reflexivity. Qed.

End ReflectionFacts.

(** ** Task executors *)

Module ExecutorFacts.
Import Executor.

Lemma notify_all_eq (ps : list Q) (s : run_state) :
  notify_all ps s =
  (Ret tt, {| registered := registered s;
              hook_trace := hook_trace s ++ notifications (registered s) ps |}).
Proof.
  revert s. induction ps as [|p ps IH]; intros s.
  - simpl. unfold ret, notifications. simpl. rewrite app_nil_r. by destruct s.
  - simpl. unfold bind, notify, record. rewrite IH. simpl.
    unfold notifications. simpl. by rewrite app_assoc.
Qed.

Lemma hook_call_eq {A : Type} (ev : hook_event) (b : behaviour A) (s : run_state) :
  call_hook ev b s =
  (result_of b,
   {| registered := registered s;
      hook_trace := hook_trace s ++ ev :: notifications (registered s) (emits b) |}).
Proof.
  unfold call_hook, bind, record. rewrite notify_all_eq. simpl.
  by rewrite <- app_assoc.
Qed.

(** [post_execute] is among the calls of every execution. *)
Lemma post_execute_called (task : Task) (arguments : kwargs)
    (regs : list callback) :
  In Call_post_execute (execution_calls task arguments regs).
Proof.
  unfold execution_calls. right. apply in_or_app. right.
  apply in_or_app. right. by left.
Qed.

(** The calls and the outcome of one run of [_execute_task]. *)
Lemma execute_task_run (task : Task) (arguments : kwargs)
    (progress_callback : option callback) (s : run_state) :
  hook_trace (snd (_execute_task task arguments progress_callback s))
  = hook_trace s
    ++ match progress_callback with
       | None => execution_calls task arguments (registered s)
       | Some cb =>
           Register cb
           :: execution_calls task arguments (registered s ++ [cb])
           ++ [Deregister cb]
       end
  /\ fst (_execute_task task arguments progress_callback s)
     = match result_of (task_atom.post_execute task) with
       | Raise e' => Raise e'
       | Ret _ =>
           match guarded_outcome task arguments with
           | Ret value => Ret (EXECUTED, value)
           | Raise e =>
               if isinstance e Exception then Ret (EXECUTED, PFailure e)
               else Raise e
           end
       end.
Proof.
  unfold _execute_task, register_deregister, execution_calls, guarded_outcome.
  destruct progress_callback as [cb|];
    unfold bind, try_finally, try_except, notifier_register,
      notifier_deregister, ret;
    rewrite hook_call_eq; cbn [registered hook_trace];
    destruct (result_of (task_atom.pre_execute task)) as [[]|e1];
    repeat (rewrite hook_call_eq; cbn [registered hook_trace fst snd]);
    try destruct (result_of (task_atom.execute task arguments)) as [v|e2];
    try destruct (isinstance e1 Exception);
    try destruct (isinstance e2 Exception);
    repeat (rewrite hook_call_eq; cbn [registered hook_trace fst snd]);
    destruct (result_of (task_atom.post_execute task)) as [[]|e3];
    cbn [registered hook_trace fst snd];
    (split; [|reflexivity]);
    repeat (rewrite <- app_assoc; cbn [app]); reflexivity.
Qed.

(** C1, as the code has it.  [_execute_task] calls [pre_execute], then
    [execute] when [pre_execute] returned, then [post_execute] on every
    path, the progress callback being registered before and deregistered
    after.  When [post_execute] returns, the result is the tuple
    [("executed", r)]: [r] is the value [execute] returned or, when
    [pre_execute] or [execute] raised an instance of [Exception], the
    [Failure] wrapping it, which thus never propagates.  An exception
    raised by [post_execute] propagates. *)
Theorem execute_task_outcome (task : Task) (arguments : kwargs)
    (progress_callback : option callback) (s : run_state) :
  hook_trace (snd (_execute_task task arguments progress_callback s))
  = hook_trace s
    ++ match progress_callback with
       | None => execution_calls task arguments (registered s)
       | Some cb =>
           Register cb
           :: execution_calls task arguments (registered s ++ [cb])
           ++ [Deregister cb]
       end
  /\ In Call_post_execute
       (drop (length (hook_trace s))
          (hook_trace (snd (_execute_task task arguments progress_callback s))))
  /\ fst (_execute_task task arguments progress_callback s)
     = match result_of (task_atom.post_execute task) with
       | Raise e' => Raise e'
       | Ret _ =>
           match guarded_outcome task arguments with
           | Ret value => Ret (EXECUTED, value)
           | Raise e =>
               if isinstance e Exception then Ret (EXECUTED, PFailure e)
               else Raise e
           end
       end.
Proof.
  destruct (execute_task_run task arguments progress_callback s) as [Ht Ho].
  split; [exact Ht|]. split; [|exact Ho].
  rewrite Ht, drop_app_length.
  destruct progress_callback as [cb|].
  - right. apply in_or_app. left. apply post_execute_called.
  - apply post_execute_called.
Qed.

(** Against C1 as the specification states it, which excludes the
    exceptions of [pre_execute] from the conversion.  Here [pre_execute]
    raises [ValueError]: [execute] is not called, [post_execute] is, and
    the result is the tuple holding the [Failure] that wraps the exception
    of [pre_execute]. *)
Lemma pre_execute_exception_is_converted :
  result_of (task_atom.pre_execute Samples.failing_pre_task)
    = Raise (ValueError "boom")
  /\ _execute_task Samples.failing_pre_task ∅ None
       (initial Samples.failing_pre_task)
     = (Ret (EXECUTED, PFailure (ValueError "boom")),
        {| registered := []; hook_trace := [Call_pre_execute; Call_post_execute] |}).
Proof. split; reflexivity. Qed.

(** A run in which every hook returns: the callback hears both progress
    reports of [execute], after the listener of the task. *)
Example _execute_task_plain :
  _execute_task Samples.plain_task ∅ (Some 9) (initial Samples.plain_task)
  = (Ret (EXECUTED, PInt 5),
     {| registered := [7];
        hook_trace := [Register 9; Call_pre_execute; Call_execute ∅;
                  Notify 7 0.5%Q; Notify 9 0.5%Q; Notify 7 1%Q; Notify 9 1%Q;
                  Call_post_execute; Deregister 9] |}).
Proof. reflexivity. Qed.

(** An exception that is no instance of [Exception] passes the handler,
    after [post_execute] ran. *)
Lemma _execute_task_KeyboardInterrupt (task : Task) (arguments : kwargs)
    (s : run_state) :
  guarded_outcome task arguments = Raise KeyboardInterrupt ->
  returns (result_of (task_atom.post_execute task)) = true ->
  fst (_execute_task task arguments None s) = Raise KeyboardInterrupt.
Proof.
  intros Hg Hp.
  destruct (execute_task_run task arguments None s) as (_ & ->).
  rewrite Hg. by destruct (result_of (task_atom.post_execute task)).
Qed.

(** *** Lifecycle of the parallel executors *)

(** C6, as the code has it.  An executor built without a pool owns the
    pool it is going to create; built with a pool, it borrows it.
    [start()] on an owning executor creates a pool sized to the given
    worker count, or else to the optimal thread count, and keeps it.
    [stop()] on an owning executor that holds a pool shuts that pool down
    with [wait=True] (the work in flight is completed) and empties the
    pool reference.  On a borrowing executor [start()] and [stop()] do
    nothing: the supplied pool is never shut down, and the reference to
    it stays. *)
Theorem stop_releases_own_pool (self : ParallelTaskExecutor) (w : pool_world) :
  (forall cls executor workers,
      _own_executor (__init__ cls executor workers) = true <-> executor = None)
  /\ (_own_executor self = true ->
      let started := snd (start {| this := self; env := w |}) in
      fst (start {| this := self; env := w |}) = Ret tt
      /\ _executor (this started) = Some (next_id w)
      /\ pools (env started) !! next_id w
         = Some {| kind := variant self;
                   max_workers :=
                     default (optimal_thread_count w) (_max_workers self);
                   pending := []; completed := []; is_shutdown := false |})
  /\ (forall p q,
      _own_executor self = true ->
      _executor self = Some p ->
      pools w !! p = Some q ->
      let stopped := snd (stop {| this := self; env := w |}) in
      fst (stop {| this := self; env := w |}) = Ret tt
      /\ _executor (this stopped) = None
      /\ pools (env stopped) !! p
         = Some {| kind := kind q; max_workers := max_workers q;
                   pending := []; completed := completed q ++ pending q;
                   is_shutdown := true |}
      /\ pool_trace (env stopped) = pool_trace w ++ [Shutdown p true])
  /\ (_own_executor self = false ->
      start {| this := self; env := w |} = (Ret tt, {| this := self; env := w |})
      /\ stop {| this := self; env := w |} = (Ret tt, {| this := self; env := w |})).
Proof.
  split; [|split; [|split]].
  - intros cls executor workers. unfold __init__; simpl.
    apply bool_decide_eq_true.
  - intros Hown. unfold start; simpl. rewrite Hown.
    unfold bind, _create_executor, set_executor; simpl.
    split; [reflexivity|]. split; [reflexivity|].
    rewrite lookup_insert_eq. by destruct (_max_workers self).
  - intros p q Hown Hp Hq. unfold stop; simpl. rewrite Hown, Hp.
    unfold bind, pool_shutdown, with_env, set_executor; simpl.
    split; [reflexivity|]. split; [reflexivity|]. split; [|reflexivity].
    by rewrite lookup_alter_eq, Hq.
  - intros Hown. unfold start, stop; simpl. by rewrite Hown.
Qed.

Lemma stop_releases_own_pool_witness :
  let created :=
    snd (start {| this := __init__ ThreadPool None (Some 3);
                  env := Samples.empty_world |}) in
  _executor (this created) = Some 0
  /\ _executor (this (snd (stop created))) = None
  /\ pool_trace (env (snd (stop created)))
     = [Created 0 ThreadPool 3; Shutdown 0 true]
  /\ stop {| this := __init__ ProcessPool (Some 0) None;
             env := Samples.shared_world |}
     = (Ret tt, {| this := __init__ ProcessPool (Some 0) None;
                   env := Samples.shared_world |}).
Proof.
  pose proof (stop_releases_own_pool (__init__ ThreadPool None (Some 3))
                Samples.empty_world) as (_ & Hstart & _ & _).
  destruct (Hstart eq_refl) as (_ & Hheld & Hpool).
  pose proof (stop_releases_own_pool
                (this (snd (start {| this := __init__ ThreadPool None (Some 3);
                                     env := Samples.empty_world |})))
                (env (snd (start {| this := __init__ ThreadPool None (Some 3);
                                    env := Samples.empty_world |}))))
    as (_ & _ & Hstop & _).
  destruct (Hstop 0 _ eq_refl Hheld Hpool) as (_ & Hnone & _ & Htrace).
  pose proof (stop_releases_own_pool (__init__ ProcessPool (Some 0) None)
                Samples.shared_world) as (_ & _ & _ & Hext).
  destruct (Hext eq_refl) as [_ Hstop'].
  exact (conj Hheld (conj Hnone (conj Htrace Hstop'))).
Defined.

(** Against C6 as the specification states it, which has [stop()] safe
    without a pool and the pool reference empty after it.  An owning
    executor that was never started, or was stopped already, raises
    [AttributeError] on [stop()]; a borrowing executor keeps its reference
    to the supplied pool. *)
Lemma stop_is_not_idempotent :
  let own := {| this := __init__ ThreadPool None None;
                env := Samples.empty_world |} in
  let borrowed := {| this := __init__ ProcessPool (Some 0) None;
                     env := Samples.shared_world |} in
  stop own
    = (Raise (AttributeError "'NoneType' object has no attribute 'shutdown'"), own)
  /\ fst (stop (snd (stop (snd (start own)))))
     = Raise (AttributeError "'NoneType' object has no attribute 'shutdown'")
  /\ fst (stop borrowed) = Ret tt
  /\ _executor (this (snd (stop borrowed))) = Some 0.
Proof. repeat split; reflexivity. Qed.

(** *** Submissions to a process pool *)

Lemma notifications_nil (ps : list Q) : notifications [] ps = [].
Proof. unfold notifications. induction ps; simpl; auto. Qed.

(** A task object without listeners, run without a callback, notifies
    nobody. *)
Lemma run_job_silent (f : func) (task : Task) (a : list posarg) :
  task_atom.listeners task = [] ->
  forallb (fun ev => negb (is_Notify ev))
    (hook_trace (snd (run_job {| job_func := f; job_task := task;
                            job_args := a; job_kwargs := ∅ |}))) = true.
Proof.
  intros Hl. unfold run_job. cbn [job_func job_args job_kwargs job_task].
  rewrite lookup_empty. cbn [default].
  destruct f, a as [|[a1|v1] [|[a2|v2] [|[a3|v3] [|? ?]]]]; try reflexivity.
  - destruct (execute_task_run task a1 None (initial task)) as (-> & _).
    unfold initial, execution_calls; cbn [registered hook_trace]. rewrite Hl.
    rewrite !notifications_nil.
    by destruct (result_of (task_atom.pre_execute task)).
  - unfold _revert_task, register_deregister, bind, try_finally, try_except, ret.
    rewrite hook_call_eq; cbn [registered hook_trace initial].
    destruct (result_of (task_atom.pre_revert task)) as [[]|e1];
      repeat (rewrite hook_call_eq; cbn [registered hook_trace fst snd]);
      try match goal with
          | |- context [result_of (task_atom.revert task ?k)] =>
              destruct (result_of (task_atom.revert task k)) as [v|e2]
          end;
      try destruct (isinstance e1 Exception);
      try destruct (isinstance e2 Exception);
      repeat (rewrite hook_call_eq; cbn [registered hook_trace fst snd]);
      destruct (result_of (task_atom.post_revert task)) as [[]|e3];
      cbn [registered hook_trace fst snd];
      rewrite Hl, !notifications_nil; reflexivity.
Qed.

(** C7.  A submission through the process executor ([execute_task] or
    [revert_task]) to a live pool queues a job whose task is the clone
    made by [task.copy(retain_listeners=False)] (a new object without
    listeners) and whose keyword arguments hold no [progress_callback];
    running that job invokes no progress callback; and the future that is
    returned has the original task as its [atom]. *)
Theorem process_submission (self : ParallelTaskExecutor) (w : pool_world)
    (p : nat) (q : pool) (task : Task) (task_uuid : string)
    (arguments : kwargs) (result failures : pyval)
    (progress_callback : option callback) :
  variant self = ProcessPool ->
  _executor self = Some p ->
  pools w !! p = Some q ->
  is_shutdown q = false ->
  let s := {| this := self; env := w |} in
  let clone := clone_of task (next_id w) false in
  let fut := S (next_id w) in
  let execution :=
    {| job_func := F_execute_task; job_task := clone;
       job_args := [ArgMap arguments]; job_kwargs := ∅ |} in
  let reversion :=
    {| job_func := F_revert_task; job_task := clone;
       job_args := [ArgMap arguments; ArgVal result; ArgVal failures];
       job_kwargs := ∅ |} in
  task_atom.task_id clone = next_id w
  /\ task_atom.listeners clone = []
  /\ (fst (execute_task task task_uuid arguments progress_callback s) = Ret fut
      /\ pending <$>
           pools (env (snd (execute_task task task_uuid arguments
                              progress_callback s))) !! p
         = Some (pending q ++ [execution])
      /\ atom <$>
           futures (env (snd (execute_task task task_uuid arguments
                                progress_callback s))) !! fut
         = Some (Some task)
      /\ forallb (fun ev => negb (is_Notify ev))
           (hook_trace (snd (run_job execution))) = true)
  /\ (fst (revert_task task task_uuid arguments result failures
             progress_callback s) = Ret fut
      /\ pending <$>
           pools (env (snd (revert_task task task_uuid arguments result
                              failures progress_callback s))) !! p
         = Some (pending q ++ [reversion])
      /\ atom <$>
           futures (env (snd (revert_task task task_uuid arguments result
                                failures progress_callback s))) !! fut
         = Some (Some task)
      /\ forallb (fun ev => negb (is_Notify ev))
           (hook_trace (snd (run_job reversion))) = true).
Proof.
  intros Hv He Hq Hlive s clone fut execution reversion.
  assert (Hsubmit : forall f a,
    let j := {| job_func := f; job_task := clone; job_args := a;
                job_kwargs := ∅ |} in
    fst (_submit_task f task a {["progress_callback" := progress_callback]} s)
      = Ret fut
    /\ pending <$>
         pools (env (snd (_submit_task f task a
                            {["progress_callback" := progress_callback]} s))) !! p
       = Some (pending q ++ [j])
    /\ atom <$>
         futures (env (snd (_submit_task f task a
                              {["progress_callback" := progress_callback]} s))) !! fut
       = Some (Some task)).
  { intros f a j.
    assert (Heq : exists final,
      _submit_task f task a {["progress_callback" := progress_callback]} s
        = (Ret fut, final)
      /\ pools (env final)
         = <[p := {| kind := kind q; max_workers := max_workers q;
                     pending := pending q ++ [j]; completed := completed q;
                     is_shutdown := false |}]> (pools w)
      /\ futures (env final)
         = alter (fun x => {| fut_pool := fut_pool x; atom := Some task |}) fut
             (alter (fun x => {| fut_pool := fut_pool x; atom := Some clone |}) fut
                (<[fut := {| fut_pool := p; atom := None |}]> (futures w)))).
    { unfold _submit_task. subst s. cbn [this]. rewrite Hv.
      unfold ParallelProcessTaskExecutor_submit_task, bind, task_copy.
      cbn [this env]. rewrite delete_singleton_eq.
      unfold ParallelTaskExecutor_submit_task.
      cbn [this env]. rewrite He. unfold bind, pool_submit.
      cbn [this env pools futures next_id]. rewrite Hq, Hlive.
      unfold set_atom, with_env, ret.
      cbn [this env pools futures next_id fst snd].
      eexists. split; [reflexivity|]. split; reflexivity. }
    destruct Heq as (final & -> & Hpools & Hfutures).
    cbn [fst snd]. rewrite Hpools, Hfutures.
    split; [reflexivity|]. split.
    - by rewrite lookup_insert_eq.
    - rewrite !lookup_alter_eq, lookup_insert_eq. reflexivity. }
  split; [reflexivity|]. split; [reflexivity|].
  split.
  - destruct (Hsubmit F_execute_task [ArgMap arguments]) as (H1 & H2 & H3).
    repeat (split; [assumption|]). by apply run_job_silent.
  - destruct (Hsubmit F_revert_task
                [ArgMap arguments; ArgVal result; ArgVal failures])
      as (H1 & H2 & H3).
    repeat (split; [assumption|]). by apply run_job_silent.
Qed.

Lemma process_submission_witness :
  fst (execute_task Samples.plain_task "uuid-1" ∅ (Some 9)
         {| this := __init__ ProcessPool (Some 0) None;
            env := Samples.shared_world |}) = Ret 2
  /\ atom <$>
       futures (env (snd (execute_task Samples.plain_task "uuid-1" ∅ (Some 9)
                            {| this := __init__ ProcessPool (Some 0) None;
                               env := Samples.shared_world |}))) !! 2
     = Some (Some Samples.plain_task).
Proof.
  pose proof (process_submission (__init__ ProcessPool (Some 0) None)
                Samples.shared_world 0 _ Samples.plain_task "uuid-1" ∅
                PNone PNone (Some 9) eq_refl eq_refl eq_refl eq_refl)
    as (_ & _ & (H1 & _ & H3 & _) & _).
  exact (conj H1 H3).
Defined.

(** The thread executor, for comparison, submits the task object itself
    and hands the callback on. *)
Example thread_submission :
  pending <$>
    pools (env (snd (execute_task Samples.plain_task "uuid-1" ∅ (Some 9)
                       {| this := __init__ ThreadPool (Some 0) None;
                          env := Samples.shared_world |}))) !! 0
  = Some [{| job_func := F_execute_task; job_task := Samples.plain_task;
             job_args := [ArgMap ∅];
             job_kwargs := {["progress_callback" := Some 9]} |}].
Proof. reflexivity. Qed.

End ExecutorFacts.

(** ** Task actions *)

Module TaskActionFacts.
Import TaskAction.

Lemma storage_update_eq (st : gmap string TaskDetail) (b : bool)
    (tr : list event) (u : string) (f : TaskDetail -> TaskDetail)
    (ev : event) (td : TaskDetail) :
  st !! u = Some td ->
  storage_update u f ev {| storage := st; bound := b; trace := tr |}
  = (Ret tt, {| storage := <[u := f td]> st; bound := b;
                trace := tr ++ [ev] |}).
Proof. intros H. unfold storage_update; simpl. by rewrite H. Qed.

Lemma storage_read_eq {A : Type} (w : world) (u : string)
    (f : TaskDetail -> A) (td : TaskDetail) :
  storage w !! u = Some td -> storage_read u f w = (Ret (f td), w).
Proof. intros H. unfold storage_read. by rewrite H. Qed.

Lemma state_in_singleton (st x : state) :
  state_in st [x] = bool_decide (st = x).
Proof.
  unfold state_in. apply bool_decide_ext. rewrite list_elem_of_singleton. done.
Qed.

Lemma _change_state_eq (self : TaskAction) (engine : Engine)
    (s : state) (result : pyval) (progress : option Q)
    (st : gmap string TaskDetail) (b : bool) (tr : list event)
    (td : TaskDetail) :
  st !! uuid self = Some td ->
  _change_state self engine s result progress
    {| storage := st; bound := b; trace := tr |}
  = (Ret tt,
     {| storage := <[uuid self := changed td s result progress]> st;
        bound := b;
        trace := tr ++ change_events (uuid self) s result progress |}).
Proof.
  intros H. unfold _change_state, changed, change_events, bind.
  unfold storage_reset, storage_save, storage_set_task_state,
    storage_set_task_progress, on_task_state_change, log, ret.
  destruct (state_in s RESET_TASK_STATES), (state_in s SAVE_RESULT_STATES),
    progress as [p|];
    repeat (first [rewrite (storage_update_eq _ _ _ _ _ _ _ H)
                  |erewrite storage_update_eq by apply lookup_insert_eq];
            cbn [storage bound trace]);
    rewrite ?insert_insert_eq; cbn [default td_state td_results td_progress];
    rewrite <- ?app_assoc; cbn [app];
    reflexivity.
Qed.

Lemma task_update_progress_eq (self : TaskAction) (p : Q)
    (st : gmap string TaskDetail) (b : bool) (tr : list event)
    (td : TaskDetail) :
  st !! uuid self = Some td ->
  task_update_progress self p {| storage := st; bound := b; trace := tr |}
  = (Ret tt,
     {| storage := <[uuid self := if b then set_progress td p else td]> st;
        bound := b;
        trace := tr ++ update_events b (uuid self) p |}).
Proof.
  intros H. unfold task_update_progress, bind, log, update_events.
  cbn [storage bound trace]. destruct b.
  - unfold _on_update_progress, try_except, storage_set_task_progress.
    rewrite (storage_update_eq _ _ _ _ _ _ _ H).
    by rewrite <- app_assoc.
  - by rewrite (insert_id st (uuid self) _ H).
Qed.

Lemma last_cons (p d : Q) (ps : list Q) :
  List.last (p :: ps) d = List.last ps p.
Proof.
  revert p d. induction ps as [|q ps IH]; intros p d; [done|].
  change (List.last (p :: q :: ps) d) with (List.last (q :: ps) d).
  by rewrite !IH.
Qed.

Lemma update_progress_all_eq (self : TaskAction) (ps : list Q) :
  forall (st : gmap string TaskDetail) (b : bool) (tr : list event)
         (td : TaskDetail),
    st !! uuid self = Some td ->
    update_progress_all self ps {| storage := st; bound := b; trace := tr |}
    = (Ret tt,
       {| storage :=
            <[uuid self :=
                if b then set_progress td (List.last ps (td_progress td))
                else td]> st;
          bound := b;
          trace := tr ++ flat_map (update_events b (uuid self)) ps |}).
Proof.
  induction ps as [|p ps IH]; intros st b tr td H.
  - simpl. unfold ret. rewrite app_nil_r.
    replace (if b then set_progress td (td_progress td) else td) with td
      by (by destruct b, td).
    by rewrite (insert_id st (uuid self) _ H).
  - cbn [update_progress_all]. unfold bind.
    rewrite (task_update_progress_eq _ _ _ _ _ _ H).
    erewrite IH by apply lookup_insert_eq.
    rewrite insert_insert_eq, last_cons. cbn [flat_map].
    rewrite <- app_assoc. by destruct b.
Qed.

Lemma action_call_eq {A : Type} (self : TaskAction) (ev : event) (beh : behaviour A)
    (st : gmap string TaskDetail) (b : bool) (tr : list event)
    (td : TaskDetail) :
  st !! uuid self = Some td ->
  call self ev beh {| storage := st; bound := b; trace := tr |}
  = (result_of beh,
     {| storage :=
          <[uuid self :=
              if b then set_progress td (List.last (emits beh) (td_progress td))
              else td]> st;
        bound := b;
        trace := tr ++ ev :: flat_map (update_events b (uuid self)) (emits beh) |}).
Proof.
  intros H. unfold call, bind, log. cbn [storage bound trace].
  rewrite (update_progress_all_eq _ _ _ _ _ _ H).
  by rewrite <- app_assoc.
Qed.

Lemma _force_state_eq (self : TaskAction) (engine : Engine)
    (s : state) (p : Q) (result : pyval)
    (st : gmap string TaskDetail) (b : bool) (tr : list event)
    (td : TaskDetail) :
  st !! uuid self = Some td ->
  _force_state self engine s p result
    {| storage := st; bound := b; trace := tr |}
  = (Ret tt,
     {| storage := <[uuid self := changed td s result (Some p)]> st;
        bound := b;
        trace := tr ++ change_events (uuid self) s result (Some p)
                    ++ update_events b (uuid self) p |}).
Proof.
  intros H. unfold _force_state, bind.
  rewrite (_change_state_eq _ _ _ _ _ _ _ _ _ H).
  erewrite task_update_progress_eq by apply lookup_insert_eq.
  rewrite insert_insert_eq, <- app_assoc. by destruct b.
Qed.

(** C5.  On a task whose stored state is [SUCCESS], [execute] returns at
    once: nothing is called (the trace is unchanged, so the task's
    [execute] is not invoked) and storage is left as it was, state, result
    and progress of the task included. *)
Theorem execute_skips_finished (self : TaskAction) (engine : Engine)
    (w : world) (td : TaskDetail) :
  storage w !! uuid self = Some td ->
  td_state td = SUCCESS ->
  execute self engine w = (Ret tt, w).
Proof.
  intros H Hs. unfold execute, bind, storage_get_task_state.
  rewrite (storage_read_eq _ _ _ _ H), Hs. reflexivity.
Qed.

Lemma execute_skips_finished_witness :
  execute (Samples.action_of Samples.plain_task) Samples.no_arguments
    (Samples.stored SUCCESS (PInt 5) 1)
  = (Ret tt, Samples.stored SUCCESS (PInt 5) 1).
Proof.
  apply (execute_skips_finished _ _ _
           {| td_state := SUCCESS; td_results := PInt 5; td_progress := 1%Q |}).
  - reflexivity.
  - reflexivity.
Defined.

Lemma update_events_no_transition (s : state) (b : bool) (u : string)
    (ps : list Q) :
  forallb (fun ev => negb (is_transition s ev))
    (flat_map (update_events b u) ps) = true.
Proof. induction ps as [|p ps IH]; [done|]. simpl. by destruct b. Qed.

(** C2, as the code has it.  On a task whose stored state is not
    [SUCCESS], when the call of the task's [execute] raises an exception
    [e], what [TaskAction.execute] records depends on the class of [e],
    for the handler is [except Exception].  When [e] is an instance of
    [Exception], state [FAILURE] is saved with the [Failure] wrapping [e]
    as the result, and [e] is raised to the caller.  When it is not (a
    [KeyboardInterrupt], a [SystemExit]), nothing is saved: the task
    stays [RUNNING] with the result it had, and [e] reaches the caller.
    In both cases [execute] does not return, the listener is unbound
    last, and no [SUCCESS] transition is among the calls made. *)
Theorem execute_failure (self : TaskAction) (engine : Engine) (w : world)
    (td : TaskDetail) (kw : kwargs) (ps : list Q) (e : exn) :
  storage w !! uuid self = Some td ->
  td_state td <> SUCCESS ->
  fetch_mapped_args engine (_args_mapping self)
    (<[uuid self := {| td_state := RUNNING; td_results := td_results td;
                       td_progress := 0%Q |}]> (storage w)) = Ret kw ->
  task_atom.execute (_task self) kw = Behaviour ps (Raise e) ->
  execute self engine w
  = (Raise e,
     {| storage :=
          <[uuid self :=
              if isinstance e Exception
              then {| td_state := FAILURE; td_results := PFailure e;
                      td_progress := List.last ps 0%Q |}
              else {| td_state := RUNNING; td_results := td_results td;
                      td_progress := List.last ps 0%Q |}]> (storage w);
        bound := false;
        trace :=
          trace w
          ++ [Storage_set_task_state (uuid self) RUNNING;
              Storage_set_task_progress (uuid self) 0%Q;
              Engine_on_task_state_change (uuid self) RUNNING PNone]
          ++ update_events (bound w) (uuid self) 0%Q
          ++ [Task_bind; Task_execute kw]
          ++ flat_map (update_events true (uuid self)) ps
          ++ (if isinstance e Exception
              then [Storage_save (uuid self) (PFailure e) FAILURE;
                    Engine_on_task_state_change (uuid self) FAILURE
                      (PFailure e)]
              else [])
          ++ [Task_unbind] |})
  /\ forallb (fun ev => negb (is_transition SUCCESS ev))
       (drop (length (trace w)) (trace (snd (execute self engine w)))) = true.
Proof.
  intros H Hs Hfetch Hexec.
  match goal with |- ?x = ?y /\ _ => assert (Heq : x = y) end.
  { destruct w as [st b tr]. cbn [storage bound trace] in *.
    unfold execute, bind, storage_get_task_state.
    rewrite (storage_read_eq {| storage := st; bound := b; trace := tr |} _ _ _ H).
    unfold ALREADY_FINISHED_STATES. rewrite state_in_singleton.
    rewrite bool_decide_eq_false_2 by done.
    rewrite (_force_state_eq _ _ _ _ _ _ _ _ _ H).
    unfold _autobind, try_finally, bind, task_bind, task_unbind, set_bound.
    cbn [storage bound trace].
    unfold try_except, bind, storage_fetch_mapped_args. cbn [storage bound trace].
    change (changed td RUNNING PNone (Some 0%Q))
      with {| td_state := RUNNING; td_results := td_results td;
              td_progress := 0%Q |}.
    rewrite Hfetch.
    erewrite action_call_eq by apply lookup_insert_eq.
    rewrite Hexec. cbn [result_of emits].
    destruct (isinstance e Exception) eqn:He.
    - erewrite _change_state_eq by apply lookup_insert_eq.
      unfold raise. cbn [storage bound trace].
      rewrite !insert_insert_eq.
      f_equal. f_equal.
      rewrite <- !app_assoc. reflexivity.
    - cbn [storage bound trace].
      rewrite !insert_insert_eq.
      f_equal. f_equal.
      rewrite <- !app_assoc. reflexivity. }
  split; [exact Heq|]. rewrite Heq. cbn [snd trace].
  rewrite drop_app_length, !forallb_app, update_events_no_transition.
  by destruct (bound w), (isinstance e Exception).
Qed.

Lemma execute_failure_witness :
  fst (execute (Samples.action_of Samples.failing_task) Samples.no_arguments
         (Samples.stored PENDING PNone 0))
  = Raise (ValueError "boom").
Proof.
  pose proof (execute_failure (Samples.action_of Samples.failing_task)
                Samples.no_arguments (Samples.stored PENDING PNone 0)
                {| td_state := PENDING; td_results := PNone; td_progress := 0%Q |}
                ∅ [] (ValueError "boom")
                eq_refl ltac:(discriminate) eq_refl eq_refl) as [H _].
  by rewrite H.
Defined.

(** Against C2 as the specification states it, which has every exception
    of the task recorded.  A pending task whose [execute] is interrupted
    from the keyboard: the [KeyboardInterrupt] reaches the caller, but no
    [FAILURE] transition is among the calls made, and the task is left
    in state [RUNNING] with no failure as its stored result. *)
Lemma execute_interrupt_is_not_recorded :
  task_atom.execute MoreSamples.interrupted_task ∅
  = Samples.quiet (Raise KeyboardInterrupt)
  /\ fst (execute (Samples.action_of MoreSamples.interrupted_task)
            Samples.no_arguments (Samples.stored PENDING PNone 0))
     = Raise KeyboardInterrupt
  /\ forallb (fun ev => negb (is_transition FAILURE ev))
       (trace (snd (execute (Samples.action_of MoreSamples.interrupted_task)
                      Samples.no_arguments
                      (Samples.stored PENDING PNone 0)))) = true
  /\ storage (snd (execute (Samples.action_of MoreSamples.interrupted_task)
                     Samples.no_arguments
                     (Samples.stored PENDING PNone 0))) !! "uuid-1"
     = Some {| td_state := RUNNING; td_results := PNone;
               td_progress := 0%Q |}.
Proof.
  split; [reflexivity|]. split; [reflexivity|]. split; reflexivity.
Qed.

(** The start of a reversion that is not skipped, up to the call of the
    task's [revert]. *)
Lemma revert_unfold (self : TaskAction) (engine : Engine)
    (st : gmap string TaskDetail) (tr : list event)
    (td : TaskDetail) (kw : kwargs) (ps : list Q) (o : outcome pyval) :
  st !! uuid self = Some td ->
  td_state td <> PENDING ->
  fetch_mapped_args engine (_args_mapping self)
    (<[uuid self := {| td_state := REVERTING; td_results := td_results td;
                       td_progress := 0%Q |}]> st) = Ret kw ->
  kw !! "result" = None ->
  task_atom.revert (_task self) (<["result" := td_results td]> kw)
    = Behaviour ps o ->
  (result <- storage_get (_id self) ;;
   call_revert self result kw ;;;
   ret tt)%py
    {| storage := <[uuid self := {| td_state := REVERTING;
                                    td_results := td_results td;
                                    td_progress := 0%Q |}]> st;
       bound := true;
       trace := tr |}
  = (match o with Ret _ => Ret tt | Raise e => Raise e end,
     {| storage := <[uuid self := {| td_state := REVERTING;
                                     td_results := td_results td;
                                     td_progress := List.last ps 0%Q |}]> st;
        bound := true;
        trace := tr ++ Task_revert (td_results td) kw
                       :: flat_map (update_events true (uuid self)) ps |}).
Proof.
  intros H Hs Hfetch Hkw Hrev. unfold bind, storage_get.
  erewrite storage_read_eq by apply lookup_insert_eq.
  cbn [td_results]. unfold call_revert. rewrite Hkw.
  erewrite action_call_eq by apply lookup_insert_eq.
  rewrite Hrev. cbn [result_of emits]. rewrite insert_insert_eq.
  by destruct o.
Qed.

(** Runs a reversion that is not skipped up to the outcome of the task's
    [revert]: the state read, the [REVERTING] transition, the binding of
    the listener, the arguments and the call. *)
Ltac enter_revert w H Hs Hfetch Hkw Hrev :=
  let st := fresh "st" in
  let b := fresh "b" in
  let tr := fresh "tr" in
  destruct w as [st b tr]; cbn [storage bound trace] in *;
  unfold revert; unfold bind at 1; unfold storage_get_task_state;
  rewrite (storage_read_eq {| storage := st; bound := b; trace := tr |} _ _ _ H);
  unfold NEVER_RAN_STATES; rewrite state_in_singleton;
  rewrite bool_decide_eq_false_2 by done;
  unfold bind at 1; rewrite (_force_state_eq _ _ _ _ _ _ _ _ _ H);
  change (changed ?td REVERTING PNone (Some 0%Q))
    with {| td_state := REVERTING; td_results := td_results td;
            td_progress := 0%Q |};
  unfold bind at 1;
  unfold _autobind, try_finally; unfold bind at 1;
  unfold task_bind, task_unbind, set_bound; cbn [storage bound trace];
  unfold bind at 1; unfold storage_fetch_mapped_args; cbn [storage bound trace];
  rewrite Hfetch; unfold try_except;
  rewrite (revert_unfold _ _ _ _ _ _ _ _ H Hs Hfetch Hkw Hrev).

(** C3.  On a task whose stored state is [PENDING], [revert] returns at
    once and calls nothing.  On any other stored state, when the call of
    the task's [revert] returns, [revert] forces [REVERTING] with progress
    [0.0], calls the task's [revert] with the stored result, then forces
    [REVERTED] with progress [1.0] and at last [PENDING] with progress
    [0.0], this transition starting with a reset of the task in storage:
    the task ends [PENDING], without result, at progress [0.0]. *)
Theorem revert_resets_task (self : TaskAction) (engine : Engine) (w : world)
    (td : TaskDetail) :
  storage w !! uuid self = Some td ->
  (td_state td = PENDING -> revert self engine w = (Ret tt, w))
  /\ (forall kw ps value,
        td_state td <> PENDING ->
        fetch_mapped_args engine (_args_mapping self)
          (<[uuid self := {| td_state := REVERTING;
                             td_results := td_results td;
                             td_progress := 0%Q |}]> (storage w)) = Ret kw ->
        kw !! "result" = None ->
        task_atom.revert (_task self) (<["result" := td_results td]> kw)
          = Behaviour ps (Ret value) ->
        revert self engine w
        = (Ret tt,
           {| storage :=
                <[uuid self := {| td_state := PENDING; td_results := PNone;
                                  td_progress := 0%Q |}]> (storage w);
              bound := false;
              trace :=
                trace w
                ++ [Storage_set_task_state (uuid self) REVERTING;
                    Storage_set_task_progress (uuid self) 0%Q;
                    Engine_on_task_state_change (uuid self) REVERTING PNone]
                ++ update_events (bound w) (uuid self) 0%Q
                ++ [Task_bind; Task_revert (td_results td) kw]
                ++ flat_map (update_events true (uuid self)) ps
                ++ [Task_unbind;
                    Storage_set_task_state (uuid self) REVERTED;
                    Storage_set_task_progress (uuid self) 1%Q;
                    Engine_on_task_state_change (uuid self) REVERTED PNone;
                    Task_update_progress 1%Q;
                    Storage_reset (uuid self);
                    Storage_set_task_state (uuid self) PENDING;
                    Storage_set_task_progress (uuid self) 0%Q;
                    Engine_on_task_state_change (uuid self) PENDING PNone;
                    Task_update_progress 0%Q] |})).
Proof.
  intros H. split.
  - intros Hs. unfold revert, bind, storage_get_task_state.
    rewrite (storage_read_eq _ _ _ _ H), Hs. reflexivity.
  - intros kw ps value Hs Hfetch Hkw Hrev.
    enter_revert w H Hs Hfetch Hkw Hrev.
    cbn [storage bound trace]. unfold bind.
    erewrite _force_state_eq by apply lookup_insert_eq.
    erewrite _force_state_eq by apply lookup_insert_eq.
    rewrite !insert_insert_eq.
    f_equal. f_equal.
    rewrite <- !app_assoc. reflexivity.
Qed.

Lemma revert_resets_task_witness :
  revert (Samples.action_of Samples.plain_task) Samples.no_arguments
    (Samples.stored PENDING PNone 0)
  = (Ret tt, Samples.stored PENDING PNone 0)
  /\ storage (snd (revert (Samples.action_of Samples.plain_task)
                     Samples.no_arguments (Samples.stored SUCCESS (PInt 5) 1)))
       !! "uuid-1"
     = Some {| td_state := PENDING; td_results := PNone; td_progress := 0%Q |}.
Proof.
  split.
  - apply (proj1 (revert_resets_task (Samples.action_of Samples.plain_task)
                    Samples.no_arguments (Samples.stored PENDING PNone 0)
                    {| td_state := PENDING; td_results := PNone;
                       td_progress := 0%Q |} eq_refl)).
    reflexivity.
  - rewrite (proj2 (revert_resets_task (Samples.action_of Samples.plain_task)
                      Samples.no_arguments (Samples.stored SUCCESS (PInt 5) 1)
                      {| td_state := SUCCESS; td_results := PInt 5;
                         td_progress := 1%Q |} eq_refl)
               ∅ [] PNone ltac:(discriminate) eq_refl eq_refl eq_refl).
    reflexivity.
Defined.

(** C4, as the code has it.  On a task whose stored state is not
    [PENDING], when the call of the task's [revert] raises an exception
    [e], what [TaskAction.revert] records depends on the class of [e],
    for the handler is [except Exception].  When [e] is an instance of
    [Exception], [save(uuid, None, FAILURE)] is handed to storage, so
    that the task ends in state [FAILURE] with its stored result replaced
    by [None], and then [e], the original exception, is raised to the
    caller.  When it is not (a [KeyboardInterrupt], a [SystemExit]),
    nothing is saved: the task stays [REVERTING] with the result it had,
    and [e] reaches the caller.  In both cases the listener is unbound
    last and no [REVERTED] or [PENDING] transition follows. *)
Theorem revert_failure (self : TaskAction) (engine : Engine) (w : world)
    (td : TaskDetail) (kw : kwargs) (ps : list Q) (e : exn) :
  storage w !! uuid self = Some td ->
  td_state td <> PENDING ->
  fetch_mapped_args engine (_args_mapping self)
    (<[uuid self := {| td_state := REVERTING; td_results := td_results td;
                       td_progress := 0%Q |}]> (storage w)) = Ret kw ->
  kw !! "result" = None ->
  task_atom.revert (_task self) (<["result" := td_results td]> kw)
    = Behaviour ps (Raise e) ->
  revert self engine w
  = (Raise e,
     {| storage :=
          <[uuid self :=
              if isinstance e Exception
              then {| td_state := FAILURE; td_results := PNone;
                      td_progress := List.last ps 0%Q |}
              else {| td_state := REVERTING; td_results := td_results td;
                      td_progress := List.last ps 0%Q |}]> (storage w);
        bound := false;
        trace :=
          trace w
          ++ [Storage_set_task_state (uuid self) REVERTING;
              Storage_set_task_progress (uuid self) 0%Q;
              Engine_on_task_state_change (uuid self) REVERTING PNone]
          ++ update_events (bound w) (uuid self) 0%Q
          ++ [Task_bind; Task_revert (td_results td) kw]
          ++ flat_map (update_events true (uuid self)) ps
          ++ (if isinstance e Exception
              then [Storage_save (uuid self) PNone FAILURE;
                    Engine_on_task_state_change (uuid self) FAILURE PNone]
              else [])
          ++ [Task_unbind] |}).
Proof.
  intros H Hs Hfetch Hkw Hrev.
  enter_revert w H Hs Hfetch Hkw Hrev.
  destruct (isinstance e Exception) eqn:He.
  - unfold save_and_reraise_exception.
    erewrite _change_state_eq by apply lookup_insert_eq.
    cbn [storage bound trace].
    rewrite !insert_insert_eq.
    f_equal. f_equal.
    rewrite <- !app_assoc. reflexivity.
  - cbn [storage bound trace].
    f_equal. f_equal.
    rewrite <- !app_assoc. reflexivity.
Qed.

Lemma revert_failure_witness :
  fst (revert (Samples.action_of Samples.failing_task) Samples.no_arguments
         (Samples.stored FAILURE (PFailure (ValueError "boom")) 0))
  = Raise (ValueError "boom").
Proof.
  rewrite (revert_failure (Samples.action_of Samples.failing_task)
             Samples.no_arguments
             (Samples.stored FAILURE (PFailure (ValueError "boom")) 0)
             {| td_state := FAILURE;
                td_results := PFailure (ValueError "boom");
                td_progress := 0%Q |}
             ∅ [0.5%Q] (ValueError "boom")
             eq_refl ltac:(discriminate) eq_refl eq_refl eq_refl).
  reflexivity.
Defined.

(** Against C4 as the specification states it, which has the stored
    result unchanged.  A task that succeeded with result [5] and whose
    [revert] raises: storage is handed [None] as the result to save with
    [FAILURE], and the result [5] is gone. *)
Lemma revert_failure_overwrites_result :
  td_results <$>
    storage (Samples.stored SUCCESS (PInt 5) 1) !! "uuid-1" = Some (PInt 5)
  /\ fst (revert (Samples.action_of Samples.failing_task)
            Samples.no_arguments (Samples.stored SUCCESS (PInt 5) 1))
     = Raise (ValueError "boom")
  /\ In (Storage_save "uuid-1" PNone FAILURE)
       (trace (snd (revert (Samples.action_of Samples.failing_task)
                      Samples.no_arguments
                      (Samples.stored SUCCESS (PInt 5) 1))))
  /\ storage (snd (revert (Samples.action_of Samples.failing_task)
                     Samples.no_arguments
                     (Samples.stored SUCCESS (PInt 5) 1))) !! "uuid-1"
     = Some {| td_state := FAILURE; td_results := PNone;
               td_progress := 0.5%Q |}.
Proof.
  split; [reflexivity|]. split; [reflexivity|]. split; [|reflexivity].
  vm_compute. tauto.
Qed.

End TaskActionFacts.

(** * Further properties *)

(** ** Retry controllers *)

Module RetryControllersFacts.
Import Retry RetryControllers.

(** X1.  [Times]: a retry is granted exactly when the attempt number that
    [execute] reports for the same history does not exceed [attempts];
    otherwise the answer is [REVERT], it stays [REVERT] however the
    history grows, and with [attempts <= 0] it is [REVERT] from the
    start. *)
Theorem Times_decision (self : Times) (h more : history) :
  (Times_on_failure self h = RETRY
   <-> (Times_execute self h <= _attempts self)%Z)
  /\ (Times_on_failure self h = REVERT
      <-> (_attempts self < Times_execute self h)%Z)
  /\ (Times_on_failure self h = REVERT ->
      Times_on_failure self (h ++ more) = REVERT)
  /\ ((_attempts self <= 0)%Z -> Times_on_failure self h = REVERT).
Proof.
  unfold Times_on_failure, Times_execute. rewrite length_app.
  destruct (Z.ltb_spec (Z.of_nat (length h)) (_attempts self)) as [Hlt|Hge];
    destruct (Z.ltb_spec (Z.of_nat (length h + length more)) (_attempts self))
      as [Hlt'|Hge'];
    repeat split; intros; try reflexivity; try discriminate; try lia.
Qed.

Lemma remove_once_head (x : pyval) (l : list pyval) :
  remove_once (x :: l) x = l.
Proof. unfold remove_once. simpl. by rewrite decide_True. Qed.

Lemma remove_once_skip (x y : pyval) (l : list pyval) :
  y <> x -> remove_once (y :: l) x = y :: remove_once l x.
Proof.
  intros H. unfold remove_once. simpl. rewrite decide_False by done.
  by destruct (list_remove x l).
Qed.

Lemma sequence_minus_fold (values its : list pyval) :
  sequence_minus values its = fold_left remove_once its values.
Proof. reflexivity. Qed.

Lemma sequence_minus_app (values its more : list pyval) :
  sequence_minus values (its ++ more)
  = sequence_minus (sequence_minus values its) more.
Proof. rewrite !sequence_minus_fold. apply fold_left_app. Qed.

Lemma sequence_minus_nil_l (its : list pyval) : sequence_minus [] its = [].
Proof. rewrite sequence_minus_fold. induction its; simpl; auto. Qed.

(** Removing the values already tried, in the order of the candidates,
    leaves the candidates not yet tried. *)
Lemma sequence_minus_take (values : list pyval) (k : nat) :
  sequence_minus values (take k values) = drop k values.
Proof.
  rewrite sequence_minus_fold. revert k.
  induction values as [|v values IH]; intros [|k]; try reflexivity.
  simpl. rewrite remove_once_head. apply IH.
Qed.

(** X2.  [ForEach] walks through its values: when the history holds the first
    [k] values, in their order (each attempt recorded the value it was
    given), [execute] returns the value of index [k] and [on_failure]
    grants a retry while [k] is below the number of values; once all
    values are recorded, [on_failure] answers [REVERT] and [execute]
    raises.  ([misc.sequence_minus] as modelled from the spec.) *)
Theorem ForEach_walks_values (name : string) (values : list pyval)
    (h : history) (k : nat) :
  items h = take k values ->
  (forall v, values !! k = Some v ->
     ForEach_execute sequence_minus
       {| fe_name := name; _values := values |} h = Ret v
     /\ ForEach_on_failure sequence_minus
          {| fe_name := name; _values := values |} h = Ret RETRY)
  /\ (length values <= k ->
      returns (ForEach_execute sequence_minus
                 {| fe_name := name; _values := values |} h) = false
      /\ ForEach_on_failure sequence_minus
           {| fe_name := name; _values := values |} h = Ret REVERT).
Proof.
  intros Hh.
  unfold ForEach_execute, ForEach_on_failure, _on_failure, _get_next_value.
  cbn [fe_name _values]. rewrite Hh, sequence_minus_take. split.
  - intros v Hv. apply drop_S in Hv. by rewrite Hv.
  - intros Hk. by rewrite drop_ge.
Qed.

Lemma ForEach_walks_values_witness :
  ForEach_execute sequence_minus
    {| fe_name := "foreach"; _values := [PStr "a"; PStr "b"; PStr "c"] |}
    [(PStr "a", ∅); (PStr "b", ∅)] = Ret (PStr "c").
Proof.
  apply (proj1 (ForEach_walks_values "foreach"
                  [PStr "a"; PStr "b"; PStr "c"]
                  [(PStr "a", ∅); (PStr "b", ∅)] 2 eq_refl)
           (PStr "c") eq_refl).
Defined.

Lemma remove_once_comm (l : list pyval) (a b : pyval) :
  remove_once (remove_once l a) b = remove_once (remove_once l b) a.
Proof.
  induction l as [|y l IH]; [done|].
  destruct (decide (y = a)) as [Ea|Ha], (decide (y = b)) as [Eb|Hb].
  - by rewrite <- Ea, <- Eb.
  - rewrite Ea, remove_once_head, (remove_once_skip b a l) by congruence.
    by rewrite remove_once_head.
  - rewrite Eb, remove_once_head, (remove_once_skip a b l) by congruence.
    by rewrite remove_once_head.
  - rewrite (remove_once_skip a y l), (remove_once_skip b y l) by done.
    rewrite (remove_once_skip b y), (remove_once_skip a y) by done.
    by rewrite IH.
Qed.

Lemma sequence_minus_Permutation (values its its' : list pyval) :
  Permutation its its' -> sequence_minus values its = sequence_minus values its'.
Proof.
  intros HP. rewrite !sequence_minus_fold. revert values.
  induction HP as [|x l l' _ IH|x y l|l l' l'' _ IH1 _ IH2]; intros values.
  - reflexivity.
  - simpl. apply IH.
  - simpl. by rewrite remove_once_comm.
  - by rewrite IH1.
Qed.

(** X3.  The next value and the decision of a [ForEach] depend on which
    results the history holds and how often, not on their order.
    ([misc.sequence_minus] as modelled from the spec.) *)
Theorem ForEach_history_order (name : string) (values : list pyval)
    (h h' : history) :
  Permutation (items h) (items h') ->
  ForEach_execute sequence_minus {| fe_name := name; _values := values |} h
  = ForEach_execute sequence_minus {| fe_name := name; _values := values |} h'
  /\ ForEach_on_failure sequence_minus
       {| fe_name := name; _values := values |} h
     = ForEach_on_failure sequence_minus
         {| fe_name := name; _values := values |} h'.
Proof.
  intros HP.
  unfold ForEach_execute, ForEach_on_failure, _on_failure, _get_next_value.
  cbn [fe_name _values].
  by rewrite (sequence_minus_Permutation values _ _ HP).
Qed.

Lemma ForEach_history_order_witness :
  ForEach_execute sequence_minus
    {| fe_name := "foreach"; _values := [PInt 1; PInt 2; PInt 3] |}
    [(PInt 2, ∅); (PInt 1, ∅)]
  = ForEach_execute sequence_minus
      {| fe_name := "foreach"; _values := [PInt 1; PInt 2; PInt 3] |}
      [(PInt 1, ∅); (PInt 2, ∅)].
Proof.
  apply (proj1 (ForEach_history_order "foreach" [PInt 1; PInt 2; PInt 3]
                  [(PInt 2, ∅); (PInt 1, ∅)] [(PInt 1, ∅); (PInt 2, ∅)]
                  (perm_swap _ _ _))).
Defined.

(** X4.  A [ForEach] never offers a value that is not one of its candidates,
    and once the candidates are exhausted they stay exhausted however
    the history grows.  ([misc.sequence_minus] as modelled from the
    spec.) *)
Theorem ForEach_stays_within_values (name : string) (values : list pyval)
    (h more : history) :
  (forall v,
      ForEach_execute sequence_minus
        {| fe_name := name; _values := values |} h = Ret v ->
      v ∈ values)
  /\ (ForEach_on_failure sequence_minus
        {| fe_name := name; _values := values |} h = Ret REVERT ->
      ForEach_on_failure sequence_minus
        {| fe_name := name; _values := values |} (h ++ more) = Ret REVERT).
Proof.
  unfold ForEach_execute, ForEach_on_failure, _on_failure, _get_next_value,
    items.
  cbn [fe_name _values]. rewrite map_app, sequence_minus_app.
  pose proof (RetryFacts.sequence_minus_sublist values (map fst h)) as Hsub.
  destruct (sequence_minus values (map fst h)) as [|first rest].
  - split; [intros v Hv; discriminate Hv|].
    intros _. by rewrite sequence_minus_nil_l.
  - split; [|intros Hr; discriminate Hr].
    intros v Hv. inversion Hv; subst.
    eapply elem_of_sublist; [|exact Hsub]. by left.
Qed.

End RetryControllersFacts.

(** ** Reflection helpers *)

Module ReflectionMoreFacts.
Import Reflection ReflectionMore.

(** X5.  Binding a function to an instance removes the first of its required
    names and nothing else: what [get_required_callable_args] returns for
    a bound method is what it returns for the function, less the first
    name; an unbound method gives what the function gives; and
    [accepts_kwargs] does not depend on the binding.  This holds with and
    without [__wrapped__]. *)
Theorem binding_drops_first_name (ps : list param) (va kw : option string)
    (wrapped : option pyobject) (im_self : nat) :
  get_required_callable_args (Method (Function ps va kw wrapped) (Some im_self))
  = match get_required_callable_args (Function ps va kw wrapped) with
    | Ret names => Ret (drop 1 names)
    | Raise e => Raise e
    end
  /\ get_required_callable_args (Method (Function ps va kw wrapped) None)
     = get_required_callable_args (Function ps va kw wrapped)
  /\ accepts_kwargs (Method (Function ps va kw wrapped) (Some im_self))
     = accepts_kwargs (Function ps va kw wrapped)
  /\ accepts_kwargs (Method (Function ps va kw wrapped) None)
     = accepts_kwargs (Function ps va kw wrapped).
Proof.
  unfold accepts_kwargs, get_required_callable_args, _get_arg_spec.
  cbn [is_bound_method ismethod negb].
  destruct wrapped as [w|]; cbn [getattr_wrapped getargspec].
  - destruct (getargspec w) as [spec|e]; repeat split; reflexivity.
  - repeat split; reflexivity.
Qed.

(** [accepts_kwargs] answers by the declaration: a plain function, or a
    method over one, accepts keyword arguments exactly when it declares a
    [**] parameter. *)
Lemma accepts_kwargs_declared (ps : list param) (va : option string)
    (name : string) :
  name <> "" ->
  accepts_kwargs (Function ps va (Some name) None) = Ret true
  /\ accepts_kwargs (Function ps va None None) = Ret false.
Proof.
  intros H. unfold accepts_kwargs; cbn.
  destruct (String.eqb_spec name ""); [done|]. done.
Qed.

(** X6.  The two inspections fail on the same callables, with the same
    exception: [TypeError] when the object finally inspected has no
    Python code (a built-in, a class whose [__init__] is a slot wrapper,
    an object whose [__call__] is built in), [AttributeError] when an
    object has no [__call__] at all. *)
Theorem inspection_failures (function : pyobject) :
  returns (accepts_kwargs function)
  = returns (get_required_callable_args function)
  /\ (forall e,
        get_required_callable_args function = Raise e ->
        accepts_kwargs function = Raise e
        /\ (e = TypeError "arg is not a Python function"
            \/ (function = Instance None
                /\ e = AttributeError "object has no attribute '__call__'")))
  /\ returns (get_required_callable_args (Class Builtin)) = false
  /\ returns (get_required_callable_args (Instance (Some Builtin))) = false
  /\ returns (get_required_callable_args Builtin) = false.
Proof.
  split; [|split; [|repeat split]].
  - unfold accepts_kwargs, get_required_callable_args.
    by destruct (_get_arg_spec function) as [[spec b]|e].
  - intros e. unfold accepts_kwargs, get_required_callable_args.
    destruct (_get_arg_spec function) as [[spec b]|e'] eqn:E;
      [intros H; discriminate H|].
    intros H; inversion H; subst e'. split; [reflexivity|].
    unfold _get_arg_spec in E.
    assert (Hspec : forall o s, getargspec o = Raise s ->
                      s = TypeError "arg is not a Python function").
    { intros o s0. unfold getargspec.
      destruct o as [? ? ? ?|[? ? ? ?| | | |] ?| | |]; intros Ho;
        inversion Ho; reflexivity. }
    destruct function as [ps va kw w|f im|init|[c|]|].
    + destruct (getargspec _) eqn:G in E; inversion E; subst.
      left. eapply Hspec; eauto.
    + destruct (getargspec _) eqn:G in E; inversion E; subst.
      left. eapply Hspec; eauto.
    + destruct (getargspec _) eqn:G in E; inversion E; subst.
      left. eapply Hspec; eauto.
    + cbn [getattr_call] in E.
      destruct (getargspec _) eqn:G in E; inversion E; subst.
      left. eapply Hspec; eauto.
    + cbn [getattr_call] in E. inversion E. right. done.
    + cbn [getattr_call] in E. cbn in E. inversion E. by left.
Qed.

Lemma string_app_assoc (a b c : string) : (a +:+ b) +:+ c = a +:+ b +:+ c.
Proof.
  induction a as [|ch a IH]; [done|].
  change (String ch ((a +:+ b) +:+ c) = String ch (a +:+ b +:+ c)).
  by rewrite IH.
Qed.

(** X7.  How classes, objects and methods are named.  [get_class_name]
    gives a class its own name, whatever its metaclass, and gives an
    instance the name of its class.  [get_callable_name] agrees with it
    on an instance and on a class whose type is [type]; but a class with
    another metaclass (every subclass of [Retry] or of [TaskExecutor],
    whose metaclass is [abc.ABCMeta]) is named after the metaclass, so
    that all classes of one metaclass share one callable name.  A method
    is named by the class name of its [im_class], or of its [im_self]
    when [im_class] is [type], followed by a dot and its own name. *)
Theorem callable_names (c m : pyclass) (meta : class_ref) (method : string) :
  get_class_name (AClass meta c) = join_dot [__module__ c; __name__ c]
  /\ get_class_name (AnInstance c) = get_class_name (AClass meta c)
  /\ get_callable_name (AnInstance c) = get_class_name (AClass meta c)
  /\ get_callable_name (AClass the_type c) = get_class_name (AClass the_type c)
  /\ get_callable_name (AClass (a_class m) c) = get_class_name (AClass meta m)
  /\ (forall c', get_callable_name (AClass (a_class m) c')
                = get_callable_name (AClass (a_class m) c))
  /\ (forall s, get_callable_name (AMethod (a_class c) s method)
               = get_class_name (AClass meta c) +:+ "." +:+ method)
  /\ get_callable_name (AMethod the_type c method)
     = get_class_name (AClass meta c) +:+ "." +:+ method.
Proof.
  unfold get_class_name, get_callable_name; cbn.
  repeat split; intros; by rewrite ?string_app_assoc.
Qed.

(** The class [taskflow.retry.Times], whose metaclass is [abc.ABCMeta]
    by inheritance from [Retry], under its two names. *)
Example Times_names :
  let Times := {| __module__ := "taskflow.retry"; __name__ := "Times" |} in
  let ABCMeta := {| __module__ := "abc"; __name__ := "ABCMeta" |} in
  get_class_name (AClass (a_class ABCMeta) Times) = "taskflow.retry.Times"
  /\ get_callable_name (AClass (a_class ABCMeta) Times) = "abc.ABCMeta".
Proof. split; reflexivity. Qed.

End ReflectionMoreFacts.

(** ** Task executors *)

Module ExecutorMoreFacts.
Import Executor ExecutorMore.

(** X8.  What [_revert_task] calls and returns.  The task's [revert] receives
    the caller's arguments with the prior result under [result] and the
    failures under [flow_failures], whatever the caller had under these
    two keys; the hooks run as for an execution ([post_revert] on every
    path), and an instance of [Exception] raised by [pre_revert] or
    [revert] comes back wrapped in the tuple [("reverted", Failure)]. *)
Theorem revert_task_outcome (task : Task) (arguments : kwargs)
    (result failures : pyval) (progress_callback : option callback)
    (s : run_state) :
  exists injected : kwargs,
    injected !! "result" = Some result
    /\ injected !! "flow_failures" = Some failures
    /\ (forall k, k <> "result" -> k <> "flow_failures" ->
          injected !! k = arguments !! k)
    /\ hook_trace (snd (_revert_task task arguments result failures
                          progress_callback s))
       = hook_trace s
         ++ match progress_callback with
            | None => reversion_calls task injected (registered s)
            | Some cb =>
                Register cb
                :: reversion_calls task injected (registered s ++ [cb])
                ++ [Deregister cb]
            end
    /\ fst (_revert_task task arguments result failures progress_callback s)
       = match result_of (task_atom.post_revert task) with
         | Raise e' => Raise e'
         | Ret _ =>
             match result_of (task_atom.pre_revert task) with
             | Raise e =>
                 if isinstance e Exception then Ret (REVERTED, PFailure e)
                 else Raise e
             | Ret _ =>
                 match result_of (task_atom.revert task injected) with
                 | Ret value => Ret (REVERTED, value)
                 | Raise e =>
                     if isinstance e Exception then Ret (REVERTED, PFailure e)
                     else Raise e
                 end
             end
         end.
Proof.
  exists (<[task_atom.REVERT_FLOW_FAILURES := failures]>
            (<[task_atom.REVERT_RESULT := result]> arguments)).
  unfold task_atom.REVERT_FLOW_FAILURES, task_atom.REVERT_RESULT.
  split; [by rewrite lookup_insert_ne, lookup_insert_eq|].
  split; [by rewrite lookup_insert_eq|].
  split; [intros k H1 H2; by rewrite !lookup_insert_ne|].
  unfold _revert_task, register_deregister, reversion_calls.
  unfold task_atom.REVERT_FLOW_FAILURES, task_atom.REVERT_RESULT.
  set (injected := <["flow_failures" := failures]> (<["result" := result]> arguments)).
  destruct progress_callback as [cb|];
    unfold bind, try_finally, try_except, notifier_register,
      notifier_deregister, ret;
    rewrite ExecutorFacts.hook_call_eq; cbn [registered hook_trace];
    destruct (result_of (task_atom.pre_revert task)) as [[]|e1];
    repeat (rewrite ExecutorFacts.hook_call_eq;
            cbn [registered hook_trace fst snd]);
    try destruct (result_of (task_atom.revert task injected)) as [v|e2];
    try destruct (isinstance e1 Exception);
    try destruct (isinstance e2 Exception);
    repeat (rewrite ExecutorFacts.hook_call_eq;
            cbn [registered hook_trace fst snd]);
    destruct (result_of (task_atom.post_revert task)) as [[]|e3];
    cbn [registered hook_trace fst snd];
    (split; [|reflexivity]);
    repeat (rewrite <- app_assoc; cbn [app]); reflexivity.
Qed.

Lemma filter_out_appended (cb : callback) (regs : list callback) :
  cb ∉ regs -> filter (fun c => c <> cb) (regs ++ [cb]) = regs.
Proof.
  intros H. rewrite filter_app.
  rewrite (filter_cons_False _ cb []) by (intros Hc; by apply Hc).
  rewrite app_nil_r. induction regs as [|r regs IH]; [done|].
  apply not_elem_of_cons in H as [Hr Hregs].
  rewrite filter_cons_True by done. by rewrite IH.
Qed.

(** X9.  The registration of the progress callback is scoped: after
    [_execute_task] and after [_revert_task], on every exit path, the
    notifier holds the listeners it held before (the callback not being
    one of them already). *)
Theorem listeners_restored (task : Task) (arguments : kwargs)
    (result failures : pyval) (progress_callback : option callback)
    (s : run_state) :
  (forall cb, progress_callback = Some cb -> cb ∉ registered s) ->
  registered (snd (_execute_task task arguments progress_callback s))
  = registered s
  /\ registered (snd (_revert_task task arguments result failures
                       progress_callback s))
     = registered s.
Proof.
  intros Hcb.
  assert (Hf : forall cb, progress_callback = Some cb ->
                 filter (fun c => c <> cb) (registered s ++ [cb]) = registered s).
  { intros cb E. apply filter_out_appended. by apply Hcb. }
  unfold _execute_task, _revert_task, register_deregister.
  split.
  - destruct progress_callback as [cb|];
      unfold bind, try_finally, try_except, notifier_register,
        notifier_deregister, ret;
      rewrite ExecutorFacts.hook_call_eq; cbn [registered hook_trace];
      destruct (result_of (task_atom.pre_execute task)) as [[]|e1];
      repeat (rewrite ExecutorFacts.hook_call_eq;
              cbn [registered hook_trace fst snd]);
      try destruct (result_of (task_atom.execute task arguments)) as [v|e2];
      try destruct (isinstance e1 Exception);
      try destruct (isinstance e2 Exception);
      repeat (rewrite ExecutorFacts.hook_call_eq;
              cbn [registered hook_trace fst snd]);
      destruct (result_of (task_atom.post_execute task)) as [[]|e3];
      cbn [registered hook_trace fst snd];
      first [reflexivity | by apply Hf].
  - set (injected := <[task_atom.REVERT_FLOW_FAILURES := failures]> _).
    destruct progress_callback as [cb|];
      unfold bind, try_finally, try_except, notifier_register,
        notifier_deregister, ret;
      rewrite ExecutorFacts.hook_call_eq; cbn [registered hook_trace];
      destruct (result_of (task_atom.pre_revert task)) as [[]|e1];
      repeat (rewrite ExecutorFacts.hook_call_eq;
              cbn [registered hook_trace fst snd]);
      try destruct (result_of (task_atom.revert task injected)) as [v|e2];
      try destruct (isinstance e1 Exception);
      try destruct (isinstance e2 Exception);
      repeat (rewrite ExecutorFacts.hook_call_eq;
              cbn [registered hook_trace fst snd]);
      destruct (result_of (task_atom.post_revert task)) as [[]|e3];
      cbn [registered hook_trace fst snd];
      first [reflexivity | by apply Hf].
Qed.

Lemma listeners_restored_witness :
  registered (snd (_execute_task Samples.plain_task ∅ (Some 9)
                     (initial Samples.plain_task)))
  = [7].
Proof.
  apply (proj1 (listeners_restored Samples.plain_task ∅ PNone PNone (Some 9)
                  (initial Samples.plain_task)
                  ltac:(intros cb E; inversion E; subst cb;
                        vm_compute; intros H; inversion H as [|? ? ? H'];
                        inversion H'))).
Defined.

(** *** Submissions through the base (thread) executor *)

(** One submission through the base [_submit_task]: the state it
    leaves. *)
Lemma thread_submit_eq (self : ParallelTaskExecutor) (w : pool_world)
    (p : nat) (q : pool) (sub : submission) :
  variant self = ThreadPool ->
  _executor self = Some p ->
  pools w !! p = Some q ->
  is_shutdown q = false ->
  execute_task (sub_task sub) "" (sub_arguments sub) (sub_callback sub)
    {| this := self; env := w |}
  = (Ret (next_id w),
     {| this := self;
        env :=
          {| pools := <[p := {| kind := kind q; max_workers := max_workers q;
                                pending := pending q ++ [job_of sub];
                                completed := completed q;
                                is_shutdown := false |}]> (pools w);
             futures := <[next_id w := {| fut_pool := p;
                                          atom := Some (sub_task sub) |}]>
                          (futures w);
             next_id := S (next_id w);
             optimal_thread_count := optimal_thread_count w;
             pool_trace := pool_trace w ++ [Submitted p (job_of sub)] |} |}).
Proof.
  intros Hv He Hq Hlive.
  unfold execute_task, _submit_task. cbn [this]. rewrite Hv.
  unfold ParallelTaskExecutor_submit_task. cbn [this env]. rewrite He.
  unfold bind, pool_submit. cbn [this env]. rewrite Hq, Hlive.
  unfold set_atom, with_env, ret.
  cbn [this env pools futures next_id optimal_thread_count pool_trace].
  by rewrite alter_insert_eq.
Qed.

(** X10.  Through the thread executor, tasks are queued in the order of their
    submission: the futures come back in that order with fresh,
    consecutive identities, the pool's queue grows by one job for each
    submission, in order, each job holding the task object itself and
    the callback it was submitted with, every future has its own task as
    [atom], and the futures that existed before are left alone. *)
Theorem submissions_keep_order (subs : list submission) :
  forall (self : ParallelTaskExecutor) (w : pool_world) (p : nat) (q : pool),
    variant self = ThreadPool ->
    _executor self = Some p ->
    pools w !! p = Some q ->
    is_shutdown q = false ->
    fst (execute_tasks subs {| this := self; env := w |})
    = Ret (seq (next_id w) (length subs))
    /\ this (snd (execute_tasks subs {| this := self; env := w |})) = self
    /\ pending <$>
         pools (env (snd (execute_tasks subs {| this := self; env := w |}))) !! p
       = Some (pending q ++ map job_of subs)
    /\ (forall i sub,
          subs !! i = Some sub ->
          atom <$>
            futures (env (snd (execute_tasks subs {| this := self; env := w |})))
              !! (next_id w + i)
          = Some (Some (sub_task sub)))
    /\ (forall id,
          id < next_id w ->
          futures (env (snd (execute_tasks subs {| this := self; env := w |})))
            !! id
          = futures w !! id).
Proof.
  induction subs as [|sub subs IH]; intros self w p q Hv He Hq Hlive.
  - cbn. rewrite Hq. cbn. rewrite app_nil_r.
    repeat split; try reflexivity. intros i sub H. discriminate H.
  - pose (w1 := {| pools := <[p := {| kind := kind q;
                                       max_workers := max_workers q;
                                       pending := pending q ++ [job_of sub];
                                       completed := completed q;
                                       is_shutdown := false |}]> (pools w);
                    futures := <[next_id w := {| fut_pool := p;
                                                 atom := Some (sub_task sub) |}]>
                                 (futures w);
                    next_id := S (next_id w);
                    optimal_thread_count := optimal_thread_count w;
                    pool_trace := pool_trace w ++ [Submitted p (job_of sub)] |}).
    pose (q1 := {| kind := kind q; max_workers := max_workers q;
                   pending := pending q ++ [job_of sub];
                   completed := completed q; is_shutdown := false |}).
    assert (Hq1 : pools w1 !! p = Some q1) by apply lookup_insert_eq.
    destruct (IH self w1 p q1 Hv He Hq1 eq_refl) as (H1 & H2 & H3 & H4 & H5).
    destruct (execute_tasks subs {| this := self; env := w1 |})
      as [[futs|e] s1] eqn:E; cbn [fst snd] in *; [|discriminate H1].
    assert (Heq : execute_tasks (sub :: subs) {| this := self; env := w |}
                  = (Ret (next_id w :: futs), s1)).
    { cbn [execute_tasks]. unfold bind.
      rewrite (thread_submit_eq self w p q sub Hv He Hq Hlive).
      fold w1. by rewrite E. }
    rewrite Heq. cbn [fst snd length seq].
    inversion H1; subst futs.
    split; [reflexivity|]. split; [exact H2|].
    split; [rewrite H3; cbn [pending map q1]; by rewrite <- app_assoc|].
    split.
    + intros [|i] sub' Hi.
      * cbn in Hi. inversion Hi; subst sub'. rewrite Nat.add_0_r.
        rewrite H5 by (cbn; lia). cbn [futures w1].
        by rewrite lookup_insert_eq.
      * cbn in Hi. replace (next_id w + S i) with (next_id w1 + i)
          by (cbn; lia).
        by apply H4.
    + intros id Hid. rewrite H5 by (cbn; lia).
      cbn [futures w1]. rewrite lookup_insert_ne by lia. done.
Qed.

Lemma submissions_keep_order_witness :
  fst (execute_tasks
         [ {| sub_task := Samples.plain_task; sub_arguments := ∅;
              sub_callback := Some 9 |};
           {| sub_task := Samples.failing_task; sub_arguments := ∅;
              sub_callback := None |} ]
         {| this := __init__ ThreadPool (Some 0) None;
            env := Samples.shared_world |})
  = Ret [1; 2].
Proof.
  exact (proj1 (submissions_keep_order
                  [ {| sub_task := Samples.plain_task; sub_arguments := ∅;
                       sub_callback := Some 9 |};
                    {| sub_task := Samples.failing_task; sub_arguments := ∅;
                       sub_callback := None |} ]
                  (__init__ ThreadPool (Some 0) None)
                  Samples.shared_world 0 _ eq_refl eq_refl eq_refl eq_refl)).
Defined.

(** X11.  A job queued through the thread executor runs with the callback it
    was submitted with: the callback is registered after the listeners of
    the task, hears every progress value that [pre_execute], [execute]
    and [post_execute] emit, and is deregistered at the end. *)
Theorem thread_job_reports_progress (sub : submission) (cb : callback) :
  sub_callback sub = Some cb ->
  hook_trace (snd (run_job (job_of sub)))
  = Register cb
    :: execution_calls (sub_task sub) (sub_arguments sub)
         (task_atom.listeners (sub_task sub) ++ [cb])
    ++ [Deregister cb]
  /\ (forall progress,
        In progress (emits (task_atom.pre_execute (sub_task sub))
                     ++ emits (task_atom.post_execute (sub_task sub))) ->
        In (Notify cb progress) (hook_trace (snd (run_job (job_of sub)))))
  /\ (forall progress,
        returns (result_of (task_atom.pre_execute (sub_task sub))) = true ->
        In progress (emits (task_atom.execute (sub_task sub)
                              (sub_arguments sub))) ->
        In (Notify cb progress) (hook_trace (snd (run_job (job_of sub))))).
Proof.
  intros Hcb.
  assert (Hn : forall regs ps progress,
             In progress ps -> In (Notify cb progress)
                                 (notifications (regs ++ [cb]) ps)).
  { intros regs ps progress Hin. unfold notifications.
    apply in_flat_map. exists progress. split; [done|].
    apply in_map_iff. exists cb. split; [done|].
    apply in_or_app. right. by left. }
  assert (Ht : hook_trace (snd (run_job (job_of sub)))
               = Register cb
                 :: execution_calls (sub_task sub) (sub_arguments sub)
                      (task_atom.listeners (sub_task sub) ++ [cb])
                 ++ [Deregister cb]).
  { unfold run_job, job_of. cbn [job_func job_args job_kwargs job_task].
    rewrite lookup_singleton_eq, Hcb. cbn [default id].
    by destruct (ExecutorFacts.execute_task_run (sub_task sub)
                   (sub_arguments sub) (Some cb) (initial (sub_task sub)))
      as [-> _]. }
  split; [exact Ht|]. rewrite Ht. unfold execution_calls.
  split.
  - intros progress Hin. right. apply in_or_app. left.
    apply in_app_or in Hin as [Hin|Hin].
    + right. apply in_or_app. left. by apply Hn.
    + right. apply in_or_app. right. apply in_or_app. right. right.
      by apply Hn.
  - intros progress Hpre Hin. right. apply in_or_app. left. right.
    apply in_or_app. right.
    destruct (result_of (task_atom.pre_execute (sub_task sub)));
      [|discriminate Hpre].
    apply in_or_app. left. right. by apply Hn.
Qed.

Lemma thread_job_reports_progress_witness :
  In (Notify 9 0.5%Q)
    (hook_trace (snd (run_job (job_of {| sub_task := Samples.plain_task;
                                         sub_arguments := ∅;
                                         sub_callback := Some 9 |})))).
Proof.
  apply (proj2 (proj2 (thread_job_reports_progress
                         {| sub_task := Samples.plain_task; sub_arguments := ∅;
                            sub_callback := Some 9 |} 9 eq_refl))
           0.5%Q eq_refl).
  left. reflexivity.
Defined.

(** *** Edges of the life cycle *)

(** X12.  An executor that holds no pool (it owns its pool and was not
    started, or was stopped) refuses every submission with
    [AttributeError]: nothing is queued and no future is made, for the
    thread and for the process variant alike. *)
Theorem submission_without_pool (self : ParallelTaskExecutor) (w : pool_world)
    (task : Task) (task_uuid : string) (arguments : kwargs)
    (result failures : pyval) (progress_callback : option callback) :
  _executor self = None ->
  (fst (execute_task task task_uuid arguments progress_callback
          {| this := self; env := w |})
   = Raise (AttributeError "'NoneType' object has no attribute 'submit'")
   /\ pools (env (snd (execute_task task task_uuid arguments progress_callback
                         {| this := self; env := w |}))) = pools w
   /\ futures (env (snd (execute_task task task_uuid arguments
                           progress_callback {| this := self; env := w |})))
      = futures w)
  /\ (fst (revert_task task task_uuid arguments result failures
             progress_callback {| this := self; env := w |})
      = Raise (AttributeError "'NoneType' object has no attribute 'submit'")
      /\ pools (env (snd (revert_task task task_uuid arguments result failures
                            progress_callback {| this := self; env := w |})))
         = pools w
      /\ futures (env (snd (revert_task task task_uuid arguments result
                              failures progress_callback
                              {| this := self; env := w |})))
         = futures w).
Proof.
  intros He. unfold execute_task, revert_task, _submit_task. cbn [this].
  destruct (variant self).
  - unfold ParallelTaskExecutor_submit_task. cbn [this]. rewrite He.
    repeat split; reflexivity.
  - unfold ParallelProcessTaskExecutor_submit_task, bind, task_copy,
      ParallelTaskExecutor_submit_task.
    cbn [this env]. rewrite He. repeat split; reflexivity.
Qed.

Lemma submission_without_pool_witness :
  fst (execute_task Samples.plain_task "uuid-1" ∅ None
         {| this := __init__ ProcessPool None None;
            env := Samples.empty_world |})
  = Raise (AttributeError "'NoneType' object has no attribute 'submit'").
Proof.
  apply (proj1 (proj1 (submission_without_pool
                         (__init__ ProcessPool None None) Samples.empty_world
                         Samples.plain_task "uuid-1" ∅ PNone PNone None
                         eq_refl))).
Defined.

(** X13.  [start()] is not idempotent: on an owning executor a second
    [start()] makes a second pool and moves the reference to it; the
    [stop()] that follows shuts down the second pool only, so the first
    one stays open with no reference left to it. *)
Theorem second_start_leaks_pool (self : ParallelTaskExecutor) (w : pool_world) :
  _own_executor self = true ->
  let started := snd (start (snd (start {| this := self; env := w |}))) in
  let stopped := snd (stop started) in
  _executor (this started) = Some (S (next_id w))
  /\ fst (stop started) = Ret tt
  /\ _executor (this stopped) = None
  /\ is_shutdown <$> pools (env stopped) !! S (next_id w) = Some true
  /\ is_shutdown <$> pools (env stopped) !! next_id w = Some false
  /\ pool_trace (env stopped)
     = pool_trace w
       ++ [Created (next_id w) (variant self)
             (default (optimal_thread_count w) (_max_workers self));
           Created (S (next_id w)) (variant self)
             (default (optimal_thread_count w) (_max_workers self));
           Shutdown (S (next_id w)) true].
Proof.
  intros Hown started stopped.
  assert (Hstart : forall v w',
    start {| this := {| variant := variant self; _executor := v;
                        _max_workers := _max_workers self;
                        _own_executor := _own_executor self |};
             env := w' |}
    = (Ret tt,
       {| this := {| variant := variant self; _executor := Some (next_id w');
                     _max_workers := _max_workers self;
                     _own_executor := _own_executor self |};
          env := {| pools :=
                      <[next_id w' :=
                          {| kind := variant self;
                             max_workers := default (optimal_thread_count w')
                                              (_max_workers self);
                             pending := []; completed := [];
                             is_shutdown := false |}]> (pools w');
                    futures := futures w';
                    next_id := S (next_id w');
                    optimal_thread_count := optimal_thread_count w';
                    pool_trace :=
                      pool_trace w'
                      ++ [Created (next_id w') (variant self)
                            (default (optimal_thread_count w')
                               (_max_workers self))] |} |})).
  { intros v w'. unfold start. cbn [this env _own_executor _max_workers].
    rewrite Hown. unfold bind, _create_executor, set_executor.
    cbn [this env variant _executor _max_workers _own_executor].
    by destruct (_max_workers self). }
  assert (Hs : started = snd (start (snd (start
                 {| this := {| variant := variant self;
                               _executor := _executor self;
                               _max_workers := _max_workers self;
                               _own_executor := _own_executor self |};
                    env := w |})))) by (subst started; by destruct self).
  rewrite Hstart in Hs. cbn [snd] in Hs. rewrite Hstart in Hs. cbn [snd] in Hs.
  subst stopped. rewrite Hs. unfold stop.
  cbn [this env _own_executor _executor]. rewrite Hown.
  unfold bind, pool_shutdown, with_env, set_executor.
  cbn [this env variant _executor _max_workers _own_executor pools futures
       next_id optimal_thread_count pool_trace fst snd].
  split; [reflexivity|]. split; [reflexivity|]. split; [reflexivity|].
  split; [by rewrite lookup_alter_eq, lookup_insert_eq|].
  split.
  - rewrite lookup_alter_ne by lia.
    rewrite lookup_insert_ne by lia. by rewrite lookup_insert_eq.
  - by rewrite <- !app_assoc.
Qed.

Lemma second_start_leaks_pool_witness :
  is_shutdown <$>
    pools (env (snd (stop (snd (start (snd (start
             {| this := __init__ ThreadPool None (Some 3);
                env := Samples.empty_world |}))))))) !! 0
  = Some false.
Proof.
  apply (second_start_leaks_pool (__init__ ThreadPool None (Some 3))
           Samples.empty_world eq_refl).
Defined.

(** X14.  With a supplied pool, no sequence of [start()] and [stop()] calls
    does anything: every call returns, and the executor, the pools and
    the futures are as before. *)
Theorem borrowed_pool_lifecycle (ops : list lifecycle)
    (self : ParallelTaskExecutor) (w : pool_world) :
  _own_executor self = false ->
  run_lifecycle ops {| this := self; env := w |}
  = (Ret tt, {| this := self; env := w |}).
Proof.
  intros Hown. induction ops as [|op ops IH]; [reflexivity|].
  cbn [run_lifecycle]. unfold bind.
  destruct op; unfold start, stop; cbn [this]; rewrite Hown; exact IH.
Qed.

Lemma borrowed_pool_lifecycle_witness :
  run_lifecycle [Stop; Start; Stop; Stop]
    {| this := __init__ ProcessPool (Some 0) None;
       env := Samples.shared_world |}
  = (Ret tt, {| this := __init__ ProcessPool (Some 0) None;
                env := Samples.shared_world |}).
Proof.
  apply (borrowed_pool_lifecycle _ (__init__ ProcessPool (Some 0) None)
           Samples.shared_world eq_refl).
Defined.

End ExecutorMoreFacts.

(** ** Task actions *)

Module TaskActionMoreFacts.
Import TaskAction.

(** Every path of an execution that is not skipped, for a task known to
    storage. *)
Lemma execute_paths (self : TaskAction) (engine : Engine)
    (st : gmap string TaskDetail) (b : bool) (tr : list event)
    (td : TaskDetail) :
  st !! uuid self = Some td ->
  td_state td <> SUCCESS ->
  execute self engine {| storage := st; bound := b; trace := tr |}
  = let u := uuid self in
    let st1 := <[u := {| td_state := RUNNING; td_results := td_results td;
                         td_progress := 0%Q |}]> st in
    let tr1 := tr ++ change_events u RUNNING PNone (Some 0%Q)
                  ++ update_events b u 0%Q ++ [Task_bind] in
    match fetch_mapped_args engine (_args_mapping self) st1 with
    | Raise e =>
        if isinstance e Exception
        then (Raise e,
              {| storage := <[u := {| td_state := FAILURE;
                                      td_results := PFailure e;
                                      td_progress := 0%Q |}]> st;
                 bound := false;
                 trace := tr1 ++ change_events u FAILURE (PFailure e) None
                              ++ [Task_unbind] |})
        else (Raise e,
              {| storage := st1; bound := false;
                 trace := tr1 ++ [Task_unbind] |})
    | Ret kw =>
        let beh := task_atom.execute (_task self) kw in
        let p := List.last (emits beh) 0%Q in
        let tr2 := tr1 ++ Task_execute kw
                          :: flat_map (update_events true u) (emits beh) in
        match result_of beh with
        | Ret v =>
            (Ret tt,
             {| storage := <[u := {| td_state := SUCCESS; td_results := v;
                                     td_progress := 1%Q |}]> st;
                bound := false;
                trace := tr2 ++ [Task_unbind]
                             ++ change_events u SUCCESS v (Some 1%Q)
                             ++ update_events false u 1%Q |})
        | Raise e =>
            if isinstance e Exception
            then (Raise e,
                  {| storage := <[u := {| td_state := FAILURE;
                                          td_results := PFailure e;
                                          td_progress := p |}]> st;
                     bound := false;
                     trace := tr2 ++ change_events u FAILURE (PFailure e) None
                                  ++ [Task_unbind] |})
            else (Raise e,
                  {| storage := <[u := {| td_state := RUNNING;
                                          td_results := td_results td;
                                          td_progress := p |}]> st;
                     bound := false;
                     trace := tr2 ++ [Task_unbind] |})
        end
    end.
Proof.
  intros H Hs. cbv zeta.
  unfold execute. unfold bind at 1. unfold storage_get_task_state.
  rewrite (TaskActionFacts.storage_read_eq
             {| storage := st; bound := b; trace := tr |} _ _ _ H).
  unfold ALREADY_FINISHED_STATES. rewrite TaskActionFacts.state_in_singleton.
  rewrite bool_decide_eq_false_2 by done.
  unfold bind at 1.
  rewrite (TaskActionFacts._force_state_eq _ _ _ _ _ _ _ _ _ H).
  change (changed td RUNNING PNone (Some 0%Q))
    with {| td_state := RUNNING; td_results := td_results td;
            td_progress := 0%Q |}.
  unfold bind at 1. unfold _autobind, try_finally. unfold bind at 1.
  unfold task_bind, task_unbind, set_bound. cbn [storage bound trace].
  unfold try_except. unfold bind at 1.
  unfold storage_fetch_mapped_args. cbn [storage bound trace].
  destruct (fetch_mapped_args engine (_args_mapping self) _) as [kw|e].
  - erewrite TaskActionFacts.action_call_eq by apply lookup_insert_eq.
    destruct (result_of (task_atom.execute (_task self) kw)) as [v|e].
    + cbn [storage bound trace].
      erewrite TaskActionFacts._force_state_eq by apply lookup_insert_eq.
      rewrite !insert_insert_eq. f_equal. f_equal.
      rewrite <- !app_assoc. reflexivity.
    + destruct (isinstance e Exception).
      * unfold bind, raise.
        erewrite TaskActionFacts._change_state_eq by apply lookup_insert_eq.
        cbn [storage bound trace]. rewrite !insert_insert_eq.
        f_equal. f_equal. rewrite <- !app_assoc. reflexivity.
      * cbn [storage bound trace]. rewrite !insert_insert_eq.
        f_equal. f_equal. rewrite <- !app_assoc. reflexivity.
  - destruct (isinstance e Exception).
    + unfold bind, raise.
      erewrite TaskActionFacts._change_state_eq by apply lookup_insert_eq.
      cbn [storage bound trace]. rewrite !insert_insert_eq.
      f_equal. f_equal. rewrite <- !app_assoc. reflexivity.
    + cbn [storage bound trace]. f_equal. f_equal.
      rewrite <- !app_assoc. reflexivity.
Qed.

(** Every path of a reversion that is not skipped, for a task known to
    storage. *)
Lemma revert_paths (self : TaskAction) (engine : Engine)
    (st : gmap string TaskDetail) (b : bool) (tr : list event)
    (td : TaskDetail) :
  st !! uuid self = Some td ->
  td_state td <> PENDING ->
  revert self engine {| storage := st; bound := b; trace := tr |}
  = let u := uuid self in
    let st1 := <[u := {| td_state := REVERTING; td_results := td_results td;
                         td_progress := 0%Q |}]> st in
    let tr1 := tr ++ change_events u REVERTING PNone (Some 0%Q)
                  ++ update_events b u 0%Q ++ [Task_bind] in
    let failed p :=
      <[u := {| td_state := FAILURE; td_results := PNone;
                td_progress := p |}]> st in
    match fetch_mapped_args engine (_args_mapping self) st1 with
    | Raise e =>
        (Raise e, {| storage := st1; bound := false;
                     trace := tr1 ++ [Task_unbind] |})
    | Ret kw =>
        match kw !! "result" with
        | Some _ =>
            (Raise (TypeError
                      "revert() got multiple values for keyword argument 'result'"),
             {| storage := failed 0%Q; bound := false;
                trace := tr1 ++ change_events u FAILURE PNone None
                             ++ [Task_unbind] |})
        | None =>
            let beh :=
              task_atom.revert (_task self) (<["result" := td_results td]> kw) in
            let p := List.last (emits beh) 0%Q in
            let tr2 := tr1 ++ Task_revert (td_results td) kw
                              :: flat_map (update_events true u) (emits beh) in
            match result_of beh with
            | Ret _ =>
                (Ret tt,
                 {| storage := <[u := {| td_state := PENDING;
                                         td_results := PNone;
                                         td_progress := 0%Q |}]> st;
                    bound := false;
                    trace := tr2 ++ [Task_unbind]
                                 ++ change_events u REVERTED PNone (Some 1%Q)
                                 ++ update_events false u 1%Q
                                 ++ change_events u PENDING PNone (Some 0%Q)
                                 ++ update_events false u 0%Q |})
            | Raise e =>
                if isinstance e Exception
                then (Raise e,
                      {| storage := failed p; bound := false;
                         trace := tr2 ++ change_events u FAILURE PNone None
                                      ++ [Task_unbind] |})
                else (Raise e,
                      {| storage := <[u := {| td_state := REVERTING;
                                              td_results := td_results td;
                                              td_progress := p |}]> st;
                         bound := false;
                         trace := tr2 ++ [Task_unbind] |})
            end
        end
    end.
Proof.
  intros H Hs. cbv zeta.
  unfold revert. unfold bind at 1. unfold storage_get_task_state.
  rewrite (TaskActionFacts.storage_read_eq
             {| storage := st; bound := b; trace := tr |} _ _ _ H).
  unfold NEVER_RAN_STATES. rewrite TaskActionFacts.state_in_singleton.
  rewrite bool_decide_eq_false_2 by done.
  unfold bind at 1.
  rewrite (TaskActionFacts._force_state_eq _ _ _ _ _ _ _ _ _ H).
  change (changed td REVERTING PNone (Some 0%Q))
    with {| td_state := REVERTING; td_results := td_results td;
            td_progress := 0%Q |}.
  unfold bind at 1. unfold _autobind, try_finally. unfold bind at 1.
  unfold task_bind, task_unbind, set_bound. cbn [storage bound trace].
  unfold bind at 1.
  unfold storage_fetch_mapped_args. cbn [storage bound trace].
  destruct (fetch_mapped_args engine (_args_mapping self) _) as [kw|e].
  - unfold try_except. unfold bind at 1. unfold storage_get.
    erewrite TaskActionFacts.storage_read_eq by apply lookup_insert_eq.
    cbn [td_results]. unfold bind at 1. unfold call_revert.
    destruct (kw !! "result") as [clash|].
    + unfold raise.
      change (isinstance (TypeError _) Exception) with true. cbv iota.
      unfold save_and_reraise_exception.
      erewrite TaskActionFacts._change_state_eq by apply lookup_insert_eq.
      cbn [storage bound trace]. rewrite !insert_insert_eq.
      f_equal. f_equal. rewrite <- !app_assoc. reflexivity.
    + erewrite TaskActionFacts.action_call_eq by apply lookup_insert_eq.
      destruct (result_of (task_atom.revert (_task self) _)) as [v|e].
      * unfold ret. cbn [storage bound trace]. unfold bind.
        erewrite TaskActionFacts._force_state_eq by apply lookup_insert_eq.
        erewrite TaskActionFacts._force_state_eq by apply lookup_insert_eq.
        rewrite !insert_insert_eq. f_equal. f_equal.
        rewrite <- !app_assoc. reflexivity.
      * destruct (isinstance e Exception).
        -- unfold save_and_reraise_exception.
           erewrite TaskActionFacts._change_state_eq by apply lookup_insert_eq.
           cbn [storage bound trace]. rewrite !insert_insert_eq.
           f_equal. f_equal. rewrite <- !app_assoc. reflexivity.
        -- cbn [storage bound trace]. rewrite !insert_insert_eq.
           f_equal. f_equal. rewrite <- !app_assoc. reflexivity.
  - cbn [storage bound trace]. f_equal. f_equal.
    rewrite <- !app_assoc. reflexivity.
Qed.

Lemma execute_skip_eq (self : TaskAction) (engine : Engine) (w : world)
    (td : TaskDetail) :
  storage w !! uuid self = Some td -> td_state td = SUCCESS ->
  execute self engine w = (Ret tt, w).
Proof.
  intros H Hs. unfold execute, bind, storage_get_task_state.
  rewrite (TaskActionFacts.storage_read_eq _ _ _ _ H), Hs. reflexivity.
Qed.

Lemma revert_skip_eq (self : TaskAction) (engine : Engine) (w : world)
    (td : TaskDetail) :
  storage w !! uuid self = Some td -> td_state td = PENDING ->
  revert self engine w = (Ret tt, w).
Proof.
  intros H Hs. unfold revert, bind, storage_get_task_state.
  rewrite (TaskActionFacts.storage_read_eq _ _ _ _ H), Hs. reflexivity.
Qed.

Lemma unknown_task_eq (self : TaskAction) (engine : Engine) (w : world) :
  storage w !! uuid self = None ->
  execute self engine w
    = (Raise (NotFound ("Unknown task: " +:+ uuid self)), w)
  /\ revert self engine w
     = (Raise (NotFound ("Unknown task: " +:+ uuid self)), w).
Proof.
  intros H. unfold execute, revert, bind, storage_get_task_state, storage_read.
  by rewrite H.
Qed.

(** X15.  [TaskAction.execute] on success: for a task whose stored state is not
    [SUCCESS] and whose [execute] returns [value], the action forces
    [RUNNING] with progress [0.0], binds its listener, calls the task
    with the fetched arguments, persists each progress update the task
    makes, unbinds, and saves [SUCCESS] with [value] and progress [1.0];
    it returns normally. *)
Theorem execute_success (self : TaskAction) (engine : Engine) (w : world)
    (td : TaskDetail) (kw : kwargs) (ps : list Q) (value : pyval) :
  storage w !! uuid self = Some td ->
  td_state td <> SUCCESS ->
  fetch_mapped_args engine (_args_mapping self)
    (<[uuid self := {| td_state := RUNNING; td_results := td_results td;
                       td_progress := 0%Q |}]> (storage w)) = Ret kw ->
  task_atom.execute (_task self) kw = Behaviour ps (Ret value) ->
  execute self engine w
  = (Ret tt,
     {| storage :=
          <[uuid self := {| td_state := SUCCESS; td_results := value;
                            td_progress := 1%Q |}]> (storage w);
        bound := false;
        trace :=
          trace w
          ++ [Storage_set_task_state (uuid self) RUNNING;
              Storage_set_task_progress (uuid self) 0%Q;
              Engine_on_task_state_change (uuid self) RUNNING PNone]
          ++ update_events (bound w) (uuid self) 0%Q
          ++ [Task_bind; Task_execute kw]
          ++ flat_map (update_events true (uuid self)) ps
          ++ [Task_unbind;
              Storage_save (uuid self) value SUCCESS;
              Storage_set_task_progress (uuid self) 1%Q;
              Engine_on_task_state_change (uuid self) SUCCESS value;
              Task_update_progress 1%Q] |}).
Proof.
  intros H Hs Hfetch Hexec. destruct w as [st b tr].
  cbn [storage bound trace] in *.
  rewrite (execute_paths _ _ _ _ _ _ H Hs). cbv zeta.
  rewrite Hfetch, Hexec. cbn [result_of emits].
  f_equal. f_equal. rewrite <- !app_assoc. reflexivity.
Qed.

Lemma execute_success_witness :
  fst (execute (Samples.action_of Samples.plain_task) Samples.no_arguments
         (Samples.stored PENDING PNone 0)) = Ret tt
  /\ storage (snd (execute (Samples.action_of Samples.plain_task)
                     Samples.no_arguments (Samples.stored PENDING PNone 0)))
       !! "uuid-1"
     = Some {| td_state := SUCCESS; td_results := PInt 5;
               td_progress := 1%Q |}.
Proof.
  rewrite (execute_success (Samples.action_of Samples.plain_task)
             Samples.no_arguments (Samples.stored PENDING PNone 0)
             {| td_state := PENDING; td_results := PNone; td_progress := 0%Q |}
             ∅ [0.5%Q; 1%Q] (PInt 5)
             eq_refl ltac:(discriminate) eq_refl eq_refl).
  split; reflexivity.
Defined.

(** X16.  When the arguments cannot be fetched, [TaskAction.execute] treats the
    exception (an instance of [Exception]) like a failure of the task:
    it saves [FAILURE] with the [Failure] wrapping it and raises it again;
    the task's [execute] is never called. *)
Theorem execute_fetch_failure (self : TaskAction) (engine : Engine) (w : world)
    (td : TaskDetail) (e : exn) :
  storage w !! uuid self = Some td ->
  td_state td <> SUCCESS ->
  fetch_mapped_args engine (_args_mapping self)
    (<[uuid self := {| td_state := RUNNING; td_results := td_results td;
                       td_progress := 0%Q |}]> (storage w)) = Raise e ->
  isinstance e Exception = true ->
  execute self engine w
  = (Raise e,
     {| storage :=
          <[uuid self := {| td_state := FAILURE; td_results := PFailure e;
                            td_progress := 0%Q |}]> (storage w);
        bound := false;
        trace :=
          trace w
          ++ [Storage_set_task_state (uuid self) RUNNING;
              Storage_set_task_progress (uuid self) 0%Q;
              Engine_on_task_state_change (uuid self) RUNNING PNone]
          ++ update_events (bound w) (uuid self) 0%Q
          ++ [Task_bind;
              Storage_save (uuid self) (PFailure e) FAILURE;
              Engine_on_task_state_change (uuid self) FAILURE (PFailure e);
              Task_unbind] |}).
Proof.
  intros H Hs Hfetch He. destruct w as [st b tr].
  cbn [storage bound trace] in *.
  rewrite (execute_paths _ _ _ _ _ _ H Hs). cbv zeta.
  rewrite Hfetch, He.
  f_equal. f_equal. rewrite <- !app_assoc. reflexivity.
Qed.

Lemma execute_fetch_failure_witness :
  fst (execute (Samples.action_of Samples.plain_task) MoreSamples.missing_arguments
         (Samples.stored PENDING PNone 0))
  = Raise (NotFound "Name 'x' is not mapped").
Proof.
  rewrite (execute_fetch_failure (Samples.action_of Samples.plain_task)
             MoreSamples.missing_arguments (Samples.stored PENDING PNone 0)
             {| td_state := PENDING; td_results := PNone; td_progress := 0%Q |}
             (NotFound "Name 'x' is not mapped")
             eq_refl ltac:(discriminate) eq_refl eq_refl).
  reflexivity.
Defined.

(** X17.  An exception of the task that is no instance of [Exception] (a
    [KeyboardInterrupt], say) passes through [TaskAction.execute]
    unrecorded: no [FAILURE] is saved, the task stays [RUNNING] with the
    result it had, the listener is unbound and the exception reaches the
    caller. *)
Theorem execute_interrupted (self : TaskAction) (engine : Engine) (w : world)
    (td : TaskDetail) (kw : kwargs) (ps : list Q) (e : exn) :
  storage w !! uuid self = Some td ->
  td_state td <> SUCCESS ->
  fetch_mapped_args engine (_args_mapping self)
    (<[uuid self := {| td_state := RUNNING; td_results := td_results td;
                       td_progress := 0%Q |}]> (storage w)) = Ret kw ->
  task_atom.execute (_task self) kw = Behaviour ps (Raise e) ->
  isinstance e Exception = false ->
  execute self engine w
  = (Raise e,
     {| storage :=
          <[uuid self := {| td_state := RUNNING; td_results := td_results td;
                            td_progress := List.last ps 0%Q |}]> (storage w);
        bound := false;
        trace :=
          trace w
          ++ [Storage_set_task_state (uuid self) RUNNING;
              Storage_set_task_progress (uuid self) 0%Q;
              Engine_on_task_state_change (uuid self) RUNNING PNone]
          ++ update_events (bound w) (uuid self) 0%Q
          ++ [Task_bind; Task_execute kw]
          ++ flat_map (update_events true (uuid self)) ps
          ++ [Task_unbind] |}).
Proof.
  intros H Hs Hfetch Hexec He. destruct w as [st b tr].
  cbn [storage bound trace] in *.
  rewrite (execute_paths _ _ _ _ _ _ H Hs). cbv zeta.
  rewrite Hfetch, Hexec. cbn [result_of emits]. rewrite He.
  f_equal. f_equal. rewrite <- !app_assoc. reflexivity.
Qed.

Lemma execute_interrupted_witness :
  storage (snd (execute (Samples.action_of MoreSamples.interrupted_task)
                  Samples.no_arguments (Samples.stored PENDING PNone 0)))
    !! "uuid-1"
  = Some {| td_state := RUNNING; td_results := PNone; td_progress := 0%Q |}.
Proof.
  rewrite (execute_interrupted (Samples.action_of MoreSamples.interrupted_task)
             Samples.no_arguments (Samples.stored PENDING PNone 0)
             {| td_state := PENDING; td_results := PNone; td_progress := 0%Q |}
             ∅ [] KeyboardInterrupt
             eq_refl ltac:(discriminate) eq_refl eq_refl eq_refl).
  reflexivity.
Defined.

(** X18.  When the arguments cannot be fetched, [TaskAction.revert] does not
    record a failure, unlike [execute]: the fetch lies outside the guarded
    block, so the exception reaches the caller with the task left in
    state [REVERTING], its stored result untouched; the task's [revert]
    is not called and the listener is unbound. *)
Theorem revert_fetch_failure (self : TaskAction) (engine : Engine) (w : world)
    (td : TaskDetail) (e : exn) :
  storage w !! uuid self = Some td ->
  td_state td <> PENDING ->
  fetch_mapped_args engine (_args_mapping self)
    (<[uuid self := {| td_state := REVERTING; td_results := td_results td;
                       td_progress := 0%Q |}]> (storage w)) = Raise e ->
  revert self engine w
  = (Raise e,
     {| storage :=
          <[uuid self := {| td_state := REVERTING;
                            td_results := td_results td;
                            td_progress := 0%Q |}]> (storage w);
        bound := false;
        trace :=
          trace w
          ++ [Storage_set_task_state (uuid self) REVERTING;
              Storage_set_task_progress (uuid self) 0%Q;
              Engine_on_task_state_change (uuid self) REVERTING PNone]
          ++ update_events (bound w) (uuid self) 0%Q
          ++ [Task_bind; Task_unbind] |}).
Proof.
  intros H Hs Hfetch. destruct w as [st b tr].
  cbn [storage bound trace] in *.
  rewrite (revert_paths _ _ _ _ _ _ H Hs). cbv zeta.
  rewrite Hfetch.
  f_equal. f_equal. rewrite <- !app_assoc. reflexivity.
Qed.

Lemma revert_fetch_failure_witness :
  storage (snd (revert (Samples.action_of Samples.plain_task)
                  MoreSamples.missing_arguments
                  (Samples.stored SUCCESS (PInt 5) 1))) !! "uuid-1"
  = Some {| td_state := REVERTING; td_results := PInt 5;
            td_progress := 0%Q |}.
Proof.
  rewrite (revert_fetch_failure (Samples.action_of Samples.plain_task)
             MoreSamples.missing_arguments (Samples.stored SUCCESS (PInt 5) 1)
             {| td_state := SUCCESS; td_results := PInt 5; td_progress := 1%Q |}
             (NotFound "Name 'x' is not mapped")
             eq_refl ltac:(discriminate) eq_refl).
  reflexivity.
Defined.

(** X19.  When the fetched arguments already hold a [result], the call
    [revert(result=..., **kwargs)] is refused with [TypeError] before the
    task's [revert] runs; being inside the guarded block, this is handled
    as a failed reversion: [FAILURE] is saved and the [TypeError]
    raised. *)
Theorem revert_result_clash (self : TaskAction) (engine : Engine) (w : world)
    (td : TaskDetail) (kw : kwargs) (clash : pyval) :
  storage w !! uuid self = Some td ->
  td_state td <> PENDING ->
  fetch_mapped_args engine (_args_mapping self)
    (<[uuid self := {| td_state := REVERTING; td_results := td_results td;
                       td_progress := 0%Q |}]> (storage w)) = Ret kw ->
  kw !! "result" = Some clash ->
  revert self engine w
  = (Raise (TypeError
              "revert() got multiple values for keyword argument 'result'"),
     {| storage :=
          <[uuid self := {| td_state := FAILURE; td_results := PNone;
                            td_progress := 0%Q |}]> (storage w);
        bound := false;
        trace :=
          trace w
          ++ [Storage_set_task_state (uuid self) REVERTING;
              Storage_set_task_progress (uuid self) 0%Q;
              Engine_on_task_state_change (uuid self) REVERTING PNone]
          ++ update_events (bound w) (uuid self) 0%Q
          ++ [Task_bind;
              Storage_save (uuid self) PNone FAILURE;
              Engine_on_task_state_change (uuid self) FAILURE PNone;
              Task_unbind] |}).
Proof.
  intros H Hs Hfetch Hkw. destruct w as [st b tr].
  cbn [storage bound trace] in *.
  rewrite (revert_paths _ _ _ _ _ _ H Hs). cbv zeta.
  rewrite Hfetch, Hkw.
  f_equal. f_equal. rewrite <- !app_assoc. reflexivity.
Qed.

Lemma revert_result_clash_witness :
  fst (revert (Samples.action_of Samples.plain_task)
         MoreSamples.result_argument (Samples.stored SUCCESS (PInt 5) 1))
  = Raise (TypeError
             "revert() got multiple values for keyword argument 'result'").
Proof.
  rewrite (revert_result_clash (Samples.action_of Samples.plain_task)
             MoreSamples.result_argument (Samples.stored SUCCESS (PInt 5) 1)
             {| td_state := SUCCESS; td_results := PInt 5; td_progress := 1%Q |}
             {["result" := PInt 0]} (PInt 0)
             eq_refl ltac:(discriminate) eq_refl eq_refl).
  reflexivity.
Defined.

(** The shape of the world after an execution or a reversion, whatever
    path was taken. *)
Lemma execute_shape (self : TaskAction) (engine : Engine) (w : world) :
  exists o td' b' calls,
    execute self engine w
    = (o, {| storage := match storage w !! uuid self with
                        | Some _ => <[uuid self := td']> (storage w)
                        | None => storage w
                        end;
             bound := b';
             trace := trace w ++ calls |})
    /\ (bound w = false -> b' = false)
    /\ (o = Ret tt -> is_Some (storage w !! uuid self) /\ td_state td' = SUCCESS)
    /\ (forall e, o = Raise e -> is_Some (storage w !! uuid self) ->
          if isinstance e Exception
          then td_state td' = FAILURE /\ td_results td' = PFailure e
          else td_state td' = RUNNING).
Proof.
  destruct w as [st b tr]. cbn [storage bound trace].
  destruct (st !! uuid self) as [td|] eqn:H.
  - destruct (decide (td_state td = SUCCESS)) as [Hs|Hs].
    + rewrite (execute_skip_eq self engine {| storage := st; bound := b; trace := tr |} td H Hs).
      exists (Ret tt), td, b, []. rewrite app_nil_r.
      cbn [storage]. rewrite (insert_id _ _ _ H).
      repeat split; eauto; try done; intros e He; discriminate He.
    + rewrite (execute_paths _ _ _ _ _ _ H Hs). cbv zeta.
      destruct (fetch_mapped_args engine (_args_mapping self) _) as [kw|e].
      * destruct (result_of (task_atom.execute (_task self) kw)) as [v|e].
        -- eexists _, _, _, _. split; [rewrite <- !app_assoc; reflexivity|].
           repeat split; eauto; try done; intros e He; discriminate He.
        -- destruct (isinstance e Exception) eqn:Hi.
           ++ eexists _, _, _, _. split; [rewrite <- !app_assoc; reflexivity|].
              repeat split; eauto; try done; intros e' He' _; inversion He'; subst;
              by rewrite Hi.
           ++ eexists _, _, _, _. split; [rewrite <- !app_assoc; reflexivity|].
              repeat split; eauto; try done; intros e' He' _; inversion He'; subst;
              by rewrite Hi.
      * destruct (isinstance e Exception) eqn:Hi.
        -- eexists _, _, _, _. split; [rewrite <- !app_assoc; reflexivity|].
           repeat split; eauto; try done; intros e' He' _; inversion He'; subst;
              by rewrite Hi.
        -- eexists _, _, _, _. split; [rewrite <- !app_assoc; reflexivity|].
           repeat split; eauto; try done; intros e' He' _; inversion He'; subst;
              by rewrite Hi.
  - destruct (unknown_task_eq self engine {| storage := st; bound := b; trace := tr |} H) as [-> _].
    exists (Raise (NotFound ("Unknown task: " +:+ uuid self))),
      {| td_state := PENDING; td_results := PNone; td_progress := 0%Q |}, b, [].
    rewrite app_nil_r. repeat split; try done;
      try (intros e' He'; discriminate He');
      intros e _ [? Hx]; discriminate Hx.
Qed.

Lemma revert_shape (self : TaskAction) (engine : Engine) (w : world) :
  exists o td' b' calls,
    revert self engine w
    = (o, {| storage := match storage w !! uuid self with
                        | Some _ => <[uuid self := td']> (storage w)
                        | None => storage w
                        end;
             bound := b';
             trace := trace w ++ calls |})
    /\ (bound w = false -> b' = false)
    /\ (o = Ret tt -> is_Some (storage w !! uuid self) /\ td_state td' = PENDING)
    /\ (forall e, o = Raise e -> is_Some (storage w !! uuid self) ->
          (td_state td' = FAILURE /\ td_results td' = PNone
           /\ isinstance e Exception = true)
          \/ td_state td' = REVERTING).
Proof.
  destruct w as [st b tr]. cbn [storage bound trace].
  destruct (st !! uuid self) as [td|] eqn:H.
  - destruct (decide (td_state td = PENDING)) as [Hs|Hs].
    + rewrite (revert_skip_eq self engine {| storage := st; bound := b; trace := tr |} td H Hs).
      exists (Ret tt), td, b, []. rewrite app_nil_r.
      cbn [storage]. rewrite (insert_id _ _ _ H).
      repeat split; eauto; try done; intros e He; discriminate He.
    + rewrite (revert_paths _ _ _ _ _ _ H Hs). cbv zeta.
      destruct (fetch_mapped_args engine (_args_mapping self) _) as [kw|e].
      * destruct (kw !! "result") as [clash|].
        { eexists _, _, _, _. split; [rewrite <- !app_assoc; reflexivity|].
          repeat split; eauto; try done; intros e' He' _; inversion He'; subst;
            left; repeat split. }
        destruct (result_of (task_atom.revert (_task self) _)) as [v|e].
        -- eexists _, _, _, _. split; [rewrite <- !app_assoc; reflexivity|].
           repeat split; eauto; try done; intros e He; discriminate He.
        -- destruct (isinstance e Exception) eqn:Hi.
           ++ eexists _, _, _, _. split; [rewrite <- !app_assoc; reflexivity|].
              repeat split; eauto; try done; intros e' He' _; inversion He'; subst;
              left; done.
           ++ eexists _, _, _, _. split; [rewrite <- !app_assoc; reflexivity|].
              repeat split; eauto; try done; intros e' He' _; by right.
      * eexists _, _, _, _. split; [rewrite <- !app_assoc; reflexivity|].
        repeat split; eauto; try done; intros e' He' _; by right.
  - destruct (unknown_task_eq self engine {| storage := st; bound := b; trace := tr |} H) as [_ ->].
    exists (Raise (NotFound ("Unknown task: " +:+ uuid self))),
      {| td_state := PENDING; td_results := PNone; td_progress := 0%Q |}, b, [].
    rewrite app_nil_r. repeat split; try done;
      try (intros e' He'; discriminate He');
      intros e _ [? Hx]; discriminate Hx.
Qed.

(** X20.  An action touches its own task only.  Whatever [execute] and
    [revert] do and however they end, what storage holds for every other
    task is unchanged, no task is added or removed, the calls made are
    appended to those made before, and the progress listener of the
    action, not bound before the call, is not bound after it. *)
Theorem action_frame (self : TaskAction) (engine : Engine) (w : world) :
  ((forall u, u <> uuid self ->
      storage (snd (execute self engine w)) !! u = storage w !! u)
   /\ (is_Some (storage (snd (execute self engine w)) !! uuid self)
       <-> is_Some (storage w !! uuid self))
   /\ (bound w = false -> bound (snd (execute self engine w)) = false)
   /\ (exists calls, trace (snd (execute self engine w)) = trace w ++ calls))
  /\ ((forall u, u <> uuid self ->
         storage (snd (revert self engine w)) !! u = storage w !! u)
      /\ (is_Some (storage (snd (revert self engine w)) !! uuid self)
          <-> is_Some (storage w !! uuid self))
      /\ (bound w = false -> bound (snd (revert self engine w)) = false)
      /\ (exists calls, trace (snd (revert self engine w)) = trace w ++ calls)).
Proof.
  split.
  - destruct (execute_shape self engine w)
      as (o & td' & b' & calls & -> & Hb & _).
    cbn [snd storage bound trace].
    split; [|split; [|split; [exact Hb|by exists calls]]].
    + intros u Hu. destruct (storage w !! uuid self); [|done].
      by rewrite lookup_insert_ne.
    + destruct (storage w !! uuid self) eqn:E; [|by rewrite E].
      rewrite lookup_insert_eq. split; eauto.
  - destruct (revert_shape self engine w)
      as (o & td' & b' & calls & -> & Hb & _).
    cbn [snd storage bound trace].
    split; [|split; [|split; [exact Hb|by exists calls]]].
    + intros u Hu. destruct (storage w !! uuid self); [|done].
      by rewrite lookup_insert_ne.
    + destruct (storage w !! uuid self) eqn:E; [|by rewrite E].
      rewrite lookup_insert_eq. split; eauto.
Qed.

(** X21.  How an execution can end.  When [execute] returns, the task is
    stored as [SUCCESS].  When it raises an instance of [Exception] for a
    task known to storage (be it from fetching the arguments or from the
    task), the task is stored as [FAILURE] with the [Failure] wrapping
    that very exception; when it raises anything else, the task is left
    [RUNNING]. *)
Theorem execute_postcondition (self : TaskAction) (engine : Engine)
    (w : world) :
  (fst (execute self engine w) = Ret tt ->
   td_state <$> storage (snd (execute self engine w)) !! uuid self
   = Some SUCCESS)
  /\ (forall e,
        fst (execute self engine w) = Raise e ->
        is_Some (storage w !! uuid self) ->
        if isinstance e Exception
        then td_state <$> storage (snd (execute self engine w)) !! uuid self
             = Some FAILURE
             /\ td_results <$>
                  storage (snd (execute self engine w)) !! uuid self
                = Some (PFailure e)
        else td_state <$> storage (snd (execute self engine w)) !! uuid self
             = Some RUNNING).
Proof.
  destruct (execute_shape self engine w)
    as (o & td' & b' & calls & -> & _ & Hret & Hraise).
  cbn [fst snd storage]. split.
  - intros Ho. destruct (Hret Ho) as [[td ->] Hs].
    by rewrite lookup_insert_eq, <- Hs.
  - intros e Ho [td Htd]. specialize (Hraise e Ho (ex_intro _ td Htd)).
    rewrite Htd, lookup_insert_eq. cbn.
    destruct (isinstance e Exception).
    + destruct Hraise as [H1 H2]. by rewrite H1, H2.
    + by rewrite Hraise.
Qed.

(** X22.  How a reversion can end.  When [revert] returns, the task is stored
    as [PENDING].  When it raises for a task known to storage, the task
    is stored either as [FAILURE], without result, the exception being an
    instance of [Exception], or as [REVERTING]. *)
Theorem revert_postcondition (self : TaskAction) (engine : Engine)
    (w : world) :
  (fst (revert self engine w) = Ret tt ->
   td_state <$> storage (snd (revert self engine w)) !! uuid self
   = Some PENDING)
  /\ (forall e,
        fst (revert self engine w) = Raise e ->
        is_Some (storage w !! uuid self) ->
        (td_state <$> storage (snd (revert self engine w)) !! uuid self
         = Some FAILURE
         /\ td_results <$> storage (snd (revert self engine w)) !! uuid self
            = Some PNone
         /\ isinstance e Exception = true)
        \/ td_state <$> storage (snd (revert self engine w)) !! uuid self
           = Some REVERTING).
Proof.
  destruct (revert_shape self engine w)
    as (o & td' & b' & calls & -> & _ & Hret & Hraise).
  cbn [fst snd storage]. split.
  - intros Ho. destruct (Hret Ho) as [[td ->] Hs].
    by rewrite lookup_insert_eq, <- Hs.
  - intros e Ho [td Htd]. specialize (Hraise e Ho (ex_intro _ td Htd)).
    rewrite Htd, lookup_insert_eq. cbn.
    destruct Hraise as [(H1 & H2 & H3)|H1]; [left|right]; by rewrite ?H1, ?H2.
Qed.

(** X23.  A completed call is not repeated: after an [execute] that returned,
    a second [execute] returns at once and changes nothing (the task is
    not run twice); after a [revert] that returned, a second [revert]
    does nothing either. *)
Theorem completed_calls_are_skipped (self : TaskAction) (engine : Engine)
    (w : world) :
  (fst (execute self engine w) = Ret tt ->
   execute self engine (snd (execute self engine w))
   = (Ret tt, snd (execute self engine w)))
  /\ (fst (revert self engine w) = Ret tt ->
      revert self engine (snd (revert self engine w))
      = (Ret tt, snd (revert self engine w))).
Proof.
  split.
  - destruct (execute_shape self engine w)
      as (o & td' & b' & calls & -> & _ & Hret & _).
    cbn [fst snd]. intros Ho. destruct (Hret Ho) as [[td Htd] Hs].
    apply (execute_skip_eq _ _ _ td'); [|exact Hs].
    cbn [storage]. rewrite Htd. apply lookup_insert_eq.
  - destruct (revert_shape self engine w)
      as (o & td' & b' & calls & -> & _ & Hret & _).
    cbn [fst snd]. intros Ho. destruct (Hret Ho) as [[td Htd] Hs].
    apply (revert_skip_eq _ _ _ td'); [|exact Hs].
    cbn [storage]. rewrite Htd. apply lookup_insert_eq.
Qed.






(** X27.  What [_change_state] persists for a task known to storage: the
    state always; the result it is given only for [SUCCESS] and
    [FAILURE], while [PENDING] clears the stored result and every other
    state leaves it alone; the progress only when one is given.  The
    engine is notified last, with the state and the result given. *)
Theorem change_state_persists (self : TaskAction) (engine : Engine)
    (s : state) (result : pyval) (progress : option Q) (w : world)
    (td : TaskDetail) :
  storage w !! uuid self = Some td ->
  fst (_change_state self engine s result progress w) = Ret tt
  /\ storage (snd (_change_state self engine s result progress w))
       !! uuid self
     = Some {| td_state := s;
               td_results :=
                 match s with
                 | SUCCESS | FAILURE => result
                 | PENDING => PNone
                 | _ => td_results td
                 end;
               td_progress := default (td_progress td) progress |}
  /\ (forall u, u <> uuid self ->
        storage (snd (_change_state self engine s result progress w)) !! u
        = storage w !! u)
  /\ List.last (trace (snd (_change_state self engine s result progress w)))
       Log_exception
     = Engine_on_task_state_change (uuid self) s result.
Proof.
  intros H. destruct w as [st b tr]. cbn [storage] in H.
  rewrite (TaskActionFacts._change_state_eq _ _ _ _ _ _ _ _ _ H).
  cbn [fst snd storage trace].
  split; [reflexivity|]. split; [|split].
  - rewrite lookup_insert_eq. by destruct s.
  - intros u Hu. by rewrite lookup_insert_ne.
  - unfold change_events. rewrite !app_assoc. apply last_last.
Qed.

Lemma change_state_persists_witness :
  storage (snd (_change_state (Samples.action_of Samples.plain_task)
                  Samples.no_arguments REVERTED (PInt 9) None
                  (Samples.stored SUCCESS (PInt 5) 1))) !! "uuid-1"
  = Some {| td_state := REVERTED; td_results := PInt 5; td_progress := 1%Q |}.
Proof.
  apply (proj1 (proj2 (change_state_persists
                         (Samples.action_of Samples.plain_task)
                         Samples.no_arguments REVERTED (PInt 9) None
                         (Samples.stored SUCCESS (PInt 5) 1)
                         {| td_state := SUCCESS; td_results := PInt 5;
                            td_progress := 1%Q |} eq_refl))).
Defined.

End TaskActionMoreFacts.
